(** * form-builder: the form-definition validator

    A shallow embedding of [PayloadGenerator._validate_form_structure]
    (src/llm/payload_generator.py) and of the two callers that hand the
    validated document onward ([PayloadGenerator.generate_form_from_prompt],
    [FormService.create_and_trigger_form]).

    The validator receives whatever the JSON output parser produced, so the
    document is an arbitrary JSON value and every Python operation the
    validator applies to it ([in], subscription, [.get], iteration, [!=],
    [set.add], string formatting) is embedded with the behaviour it has on
    each kind of value, including the exceptions Python raises by itself
    ([KeyError], [TypeError], [AttributeError]).

    The validator is embedded twice: on JSON values, where most properties
    are stated, and on an object store ([Store]), where dicts, lists and sets
    are heap objects held by reference, for the properties about what a call
    writes and what it leaves behind.  [StoreFacts.validate_on_store] relates
    the two.

    Conventions of the embedding:
    - a dict is the list of its items in insertion order; a Python dict holds
      a key once, and a lookup here takes the first binding of the key;
    - a string is a [string] with one character per code point, which covers
      the code points below 256;
    - JSON numbers are integers; floating-point numbers are not embedded. *)

From Stdlib Require Import ZArith List Bool Ascii String Lia DecimalString.
Import ListNotations.
Local Open Scope string_scope.


Set Warnings "-register-all".

(** ** Values *)

Inductive json : Type :=
| JNull
| JBool (b : bool)
| JInt (n : Z)
| JStr (s : string)
| JArr (elems : list json)
| JObj (items : list (string * json)).

(** ** Exceptions and results *)

Inductive exn : Type :=
| ValueError (msg : string)
| KeyError (key : string)
| TypeError
| AttributeError
| JSONDecodeError
| UnboundLocalError
| ExternalError (detail : string).

Inductive result (A : Type) : Type :=
| Ok (a : A)
| Raise (e : exn).

Arguments Ok {A} a.
Arguments Raise {A} e.

Definition bind {A B : Type} (r : result A) (k : A -> result B) : result B :=
  match r with
  | Ok a => k a
  | Raise e => Raise e
  end.

Notation "x <- c ;; k" := (bind c (fun x => k))
  (at level 61, c at next level, right associativity).

(** The outcome of a computation, whatever value it carried. *)
Definition outcome {A : Type} (r : result A) : result unit :=
  match r with
  | Ok _ => Ok tt
  | Raise e => Raise e
  end.

(** ** Python operations on JSON values *)

Module Py.

(** [d[key]] on the items of a dict: the first binding of [key]. *)
Fixpoint assoc (key : string) (items : list (string * json)) : option json :=
  match items with
  | [] => None
  | (k, v) :: rest => if String.eqb key k then Some v else assoc key rest
  end.

(** [needle in haystack] on two strings: the substring test. *)
Fixpoint str_contains (needle haystack : string) : bool :=
  if String.prefix needle haystack then true
  else match haystack with
       | EmptyString => false
       | String _ rest => str_contains needle rest
       end.

(** The characters of a string, each as a string of length one. *)
Fixpoint chars (s : string) : list json :=
  match s with
  | EmptyString => []
  | String c rest => JStr (String c EmptyString) :: chars rest
  end.

(** [a == b].  [bool] is a subclass of [int], so [True == 1]; dicts compare
    without regard to order. *)
Fixpoint eq (a b : json) {struct a} : bool :=
  match a, b with
  | JNull, JNull => true
  | JBool x, JBool y => Bool.eqb x y
  | JBool x, JInt n => Z.eqb (Z.b2z x) n
  | JInt n, JBool y => Z.eqb n (Z.b2z y)
  | JInt m, JInt n => Z.eqb m n
  | JStr s, JStr t => String.eqb s t
  | JArr l, JArr r =>
      (fix all2 (l : list json) (r : list json) : bool :=
         match l, r with
         | [], [] => true
         | x :: l', y :: r' => eq x y && all2 l' r'
         | _, _ => false
         end) l r
  | JObj l, JObj r =>
      Nat.eqb (List.length l) (List.length r)
      && (fix all (l : list (string * json)) : bool :=
            match l with
            | [] => true
            | (k, v) :: l' =>
                match assoc k r with
                | Some w => eq v w && all l'
                | None => false
                end
            end) l
  | _, _ => false
  end.

(** [a != b] *)
Definition ne (a b : json) : bool := negb (eq a b).

(** [isinstance(v, dict)] *)
Definition is_dict (v : json) : bool :=
  match v with
  | JObj _ => true
  | _ => false
  end.

(** [key in v], for a string [key]. *)
Definition contains (key : string) (v : json) : result bool :=
  match v with
  | JObj items =>
      Ok (match assoc key items with Some _ => true | None => false end)
  | JArr elems => Ok (existsb (eq (JStr key)) elems)
  | JStr s => Ok (str_contains key s)
  | JNull | JBool _ | JInt _ => Raise TypeError
  end.

(** [v[key]], for a string [key]. *)
Definition getitem (v : json) (key : string) : result json :=
  match v with
  | JObj items =>
      match assoc key items with
      | Some x => Ok x
      | None => Raise (KeyError key)
      end
  | _ => Raise TypeError
  end.

(** [v.get(key, default)] *)
Definition get (v : json) (key : string) (default : json) : result json :=
  match v with
  | JObj items =>
      Ok (match assoc key items with Some x => x | None => default end)
  | _ => Raise AttributeError
  end.

(** The elements [for x in v] runs over. *)
Definition iter (v : json) : result (list json) :=
  match v with
  | JArr elems => Ok elems
  | JObj items => Ok (map (fun kv => JStr (fst kv)) items)
  | JStr s => Ok (chars s)
  | JNull | JBool _ | JInt _ => Raise TypeError
  end.

(** Lists and dicts cannot be hashed. *)
Definition hashable (v : json) : bool :=
  match v with
  | JArr _ | JObj _ => false
  | _ => true
  end.

(** A [set] of hashable values. *)
Definition pyset : Type := list json.

Definition set_empty : pyset := [].

(** [s.add(v)] *)
Definition set_add (s : pyset) (v : json) : result pyset :=
  if hashable v then
    Ok (if existsb (eq v) s then s else v :: s)
  else Raise TypeError.

(** *** [repr] and [str] *)

Definition squote : ascii := ascii_of_nat 39.
Definition dquote : ascii := ascii_of_nat 34.
Definition backslash : ascii := ascii_of_nat 92.

Fixpoint has_char (c : ascii) (s : string) : bool :=
  match s with
  | EmptyString => false
  | String d rest => Ascii.eqb c d || has_char c rest
  end.

Definition hex_digit (n : nat) : ascii :=
  match String.get n "0123456789abcdef" with
  | Some c => c
  | None => "0"%char
  end.

(** [repr] of a string delimits it with single quotes, unless it holds a
    single quote and no double quote. *)
Definition repr_quote (s : string) : ascii :=
  if has_char squote s && negb (has_char dquote s) then dquote else squote.

(** Code points [repr] writes as an escape: the C0 and C1 controls, DEL,
    the no-break space and the soft hyphen. *)
Definition unprintable (n : nat) : bool :=
  (n <? 32)%nat || (n =? 127)%nat
  || ((128 <=? n)%nat && (n <=? 160)%nat) || (n =? 173)%nat.

Definition repr_char (quote c : ascii) : string :=
  let n := nat_of_ascii c in
  if Ascii.eqb c quote || Ascii.eqb c backslash then
    String backslash (String c EmptyString)
  else if (n =? 9)%nat then String backslash "t"
  else if (n =? 10)%nat then String backslash "n"
  else if (n =? 13)%nat then String backslash "r"
  else if unprintable n then
    String backslash
      (String "x" (String (hex_digit (n / 16))
                     (String (hex_digit (n mod 16)) EmptyString)))
  else String c EmptyString.

Fixpoint repr_chars (quote : ascii) (s : string) : string :=
  match s with
  | EmptyString => EmptyString
  | String c rest => repr_char quote c ++ repr_chars quote rest
  end.

Definition repr_str (s : string) : string :=
  let q := repr_quote s in
  String q (repr_chars q s ++ String q EmptyString).

Definition repr_int (n : Z) : string := NilZero.string_of_int (Z.to_int n).

(** [repr(v)] *)
Fixpoint repr (v : json) : string :=
  match v with
  | JNull => "None"
  | JBool true => "True"
  | JBool false => "False"
  | JInt n => repr_int n
  | JStr s => repr_str s
  | JArr elems =>
      "[" ++ (fix join (l : list json) : string :=
                match l with
                | [] => EmptyString
                | [x] => repr x
                | x :: rest => repr x ++ ", " ++ join rest
                end) elems ++ "]"
  | JObj items =>
      "{" ++ (fix join (l : list (string * json)) : string :=
                match l with
                | [] => EmptyString
                | [(k, x)] => repr_str k ++ ": " ++ repr x
                | (k, x) :: rest => repr_str k ++ ": " ++ repr x ++ ", " ++ join rest
                end) items ++ "}"
  end.

(** [str(v)], which is what an f-string field [{v}] formats to. *)
Definition str (v : json) : string :=
  match v with
  | JStr s => s
  | _ => repr v
  end.

End Py.


(** ** The validator (src/llm/payload_generator.py, lines 137-189) *)

(** The texts of the [ValueError]s the validator raises. *)
Module Msg.

Definition not_an_object : string := "Response must be a JSON object".

Definition missing_key (key : string) : string :=
  "Response must contain '" ++ key ++ "' field".

Definition missing_form_groups : string :=
  "formVersion must contain 'formGroups' array".

Definition section_missing_ref_key (name : json) : string :=
  "Section '" ++ Py.str name ++ "' missing refKey".

Definition missing_fields : string :=
  "Each formGroup must contain 'fields' array".

Definition invalid_field_type (field_type : json) : string :=
  "Invalid field type: " ++ Py.str field_type.

Definition field_missing_ref_key (name : json) : string :=
  "Field '" ++ Py.str name ++ "' missing refKey".

Definition ref_key_mismatch (name field_key section_key : json) : string :=
  "Field '" ++ Py.str name ++ "' has refKey '" ++ Py.str field_key
  ++ "' that doesn't match its section refKey '" ++ Py.str section_key ++ "'".

Definition layout_mismatch (name : json) : string :=
  "Section '" ++ Py.str name
  ++ "' has mismatched sectionKey in layout configuration".

End Msg.

Definition required_keys : list string := ["form"; "formVersion"].

Definition valid_field_types : list string :=
  ["text"; "text_area"; "currency"; "dropdown"; "radio"; "checkbox"].

(** [value in valid_field_types] *)
Definition in_valid_field_types (value : json) : bool :=
  existsb (fun t => Py.eq value (JStr t)) valid_field_types.

(** Lines 151-153: [for key in required_keys]. *)
Fixpoint check_required_keys (keys : list string) (form_definition : json)
  : result unit :=
  match keys with
  | [] => Ok tt
  | key :: rest =>
      present <- Py.contains key form_definition ;;
      if negb present then Raise (ValueError (Msg.missing_key key))
      else check_required_keys rest form_definition
  end.

(** Lines 170-181: the body of [for field in group["fields"]]. *)
Definition validate_field (group field : json) : result unit :=
  field_type <- Py.getitem field "fieldType" ;;
  if negb (in_valid_field_types field_type) then
    Raise (ValueError (Msg.invalid_field_type field_type))
  else
    has_ref <- Py.contains "refKey" field ;;
    if negb has_ref then
      name <- Py.get field "name" (JStr "unnamed") ;;
      Raise (ValueError (Msg.field_missing_ref_key name))
    else
      field_key <- Py.getitem field "refKey" ;;
      section_key <- Py.getitem group "refKey" ;;
      if Py.ne field_key section_key then
        name <- Py.get field "name" (JStr "unnamed") ;;
        Raise (ValueError (Msg.ref_key_mismatch name field_key section_key))
      else Ok tt.

(** Lines 169-181: [for field in group["fields"]]. *)
Fixpoint validate_fields (group : json) (fields : list json) : result unit :=
  match fields with
  | [] => Ok tt
  | field :: rest =>
      _ <- validate_field group field ;;
      validate_fields group rest
  end.

(** Lines 161-181: the section's own keys and its fields.  The section's
    refKey goes into the working set [section_ref_keys]. *)
Definition check_section (group : json) (section_ref_keys : Py.pyset)
  : result Py.pyset :=
  has_ref <- Py.contains "refKey" group ;;
  if negb has_ref then
    name <- Py.get group "name" (JStr "unnamed") ;;
    Raise (ValueError (Msg.section_missing_ref_key name))
  else
    ref_key <- Py.getitem group "refKey" ;;
    section_ref_keys' <- Py.set_add section_ref_keys ref_key ;;
    has_fields <- Py.contains "fields" group ;;
    if negb has_fields then Raise (ValueError Msg.missing_fields)
    else
      fields <- Py.getitem group "fields" ;;
      field_list <- Py.iter fields ;;
      _ <- validate_fields group field_list ;;
      Ok section_ref_keys'.

(** Lines 184-189: the section's layout configuration. *)
Definition check_layout (group : json) : result unit :=
  has_conf <- Py.contains "configurations" group ;;
  has_layout <- (if has_conf then
                   configurations <- Py.getitem group "configurations" ;;
                   Py.contains "layout" configurations
                 else Ok false) ;;
  if has_layout then
    configurations <- Py.getitem group "configurations" ;;
    layout <- Py.getitem configurations "layout" ;;
    section_key <- Py.get layout "sectionKey" JNull ;;
    ref_key <- Py.getitem group "refKey" ;;
    if Py.ne section_key ref_key then
      name <- Py.get group "name" (JStr "unnamed") ;;
      Raise (ValueError (Msg.layout_mismatch name))
    else Ok tt
  else Ok tt.

(** Lines 161-189: the body of [for group in ...]. *)
Definition validate_group (group : json) (section_ref_keys : Py.pyset)
  : result Py.pyset :=
  section_ref_keys' <- check_section group section_ref_keys ;;
  _ <- check_layout group ;;
  Ok section_ref_keys'.

(** Lines 160-189: [for group in form_definition["formVersion"]["formGroups"]],
    threading the working set through the iterations. *)
Fixpoint validate_groups (groups : list json) (section_ref_keys : Py.pyset)
  : result Py.pyset :=
  match groups with
  | [] => Ok section_ref_keys
  | group :: rest =>
      section_ref_keys' <- validate_group group section_ref_keys ;;
      validate_groups rest section_ref_keys'
  end.

(** [PayloadGenerator._validate_form_structure]: returns [None] or raises. *)
Definition _validate_form_structure (form_definition : json) : result unit :=
  if negb (Py.is_dict form_definition) then
    Raise (ValueError Msg.not_an_object)
  else
    _ <- check_required_keys required_keys form_definition ;;
    form_version <- Py.getitem form_definition "formVersion" ;;
    has_groups <- Py.contains "formGroups" form_version ;;
    if negb has_groups then Raise (ValueError Msg.missing_form_groups)
    else
      (* section_ref_keys = set() *)
      form_groups <- Py.getitem form_version "formGroups" ;;
      groups <- Py.iter form_groups ;;
      _ <- validate_groups groups Py.set_empty ;;
      Ok tt.

(** *** Sample documents *)

Definition mk_field (field_type ref_key : string) : json :=
  JObj [("fieldType", JStr field_type); ("refKey", JStr ref_key)].

Definition mk_section (ref_key : string) (fields : list json) : json :=
  JObj [("refKey", JStr ref_key); ("fields", JArr fields)].

Definition mk_document (groups : list json) : json :=
  JObj [("form", JObj []); ("formVersion", JObj [("formGroups", JArr groups)])].


(** ** The callers (generate_form_from_prompt, src/service/form_service.py,
    src/utils/api_client.py)

    What the process does to the outside is recorded as a trace of events.
    The language-model chain, the remote form service and the environment
    are the callers' collaborators and are taken as given. *)

Inductive level : Type := INFO | ERROR.

Inductive event : Type :=
| Log (lvl : level) (text : string) (arg : json + exn)
| Post (url : string) (authorization : string) (payload : json).

Definition io (A : Type) : Type := list event -> result A * list event.

(** The payloads sent to the remote service, oldest first. *)
Fixpoint posted (trace : list event) : list json :=
  match trace with
  | [] => []
  | Post _ _ payload :: rest => payload :: posted rest
  | Log _ _ _ :: rest => posted rest
  end.

(** An event is appended to the trace as it happens. *)
Definition emit (trace : list event) (ev : event) : list event :=
  (trace ++ [ev])%list.

Section Callers.

(** [self.chain.invoke({"user_description": prompt})] *)
Variable chain_invoke : string -> result json.
(** [requests.post(url, json=payload, headers=...).json()] *)
Variable remote : string -> string -> json -> result json.
(** [os.getenv('FORM_API_BASE_URL')] and [os.getenv('FORM_API_TOKEN')] *)
Variable FORM_API_BASE_URL FORM_API_TOKEN : option string.

(** The three [except] clauses of [generate_form_from_prompt]; [response]
    is the local variable of that name, unbound while the chain has not
    returned. *)
Definition handle (response : option json) (e : exn) : io json :=
  fun trace =>
    match e with
    | JSONDecodeError =>
        match response with
        | Some r =>
            (Raise e,
             emit trace (Log ERROR "Failed to parse LLM response as JSON. Response: " (inl r)))
        | None => (Raise UnboundLocalError, trace)
        end
    | ValueError _ =>
        (Raise e, emit trace (Log ERROR "Invalid response structure: " (inr e)))
    | _ => (Raise e, emit trace (Log ERROR "Error generating form: " (inr e)))
    end.

Definition generate_form_from_prompt (prompt : string) : io json :=
  fun trace =>
    match chain_invoke prompt with
    | Raise e => handle None e trace
    | Ok response =>
        match _validate_form_structure response with
        | Raise e => handle (Some response) e trace
        | Ok _ =>
            (Ok response,
             emit trace (Log INFO "Generated form definition: " (inl response)))
        end
    end.

(** [ApiClient.trigger_api]; adding [None] to a string is a [TypeError]. *)
Definition trigger_api (payload : json) : io json :=
  fun trace =>
    match FORM_API_TOKEN with
    | None => (Raise TypeError, trace)
    | Some t =>
        let token := "Bearer " ++ t in
        match FORM_API_BASE_URL with
        | None => (Raise TypeError, trace)
        | Some api_url =>
            let url := api_url ++ "/forms" in
            (remote url token payload, emit trace (Post url token payload))
        end
    end.

(** [FormService.create_and_trigger_form] *)
Definition create_and_trigger_form (prompt : string) : io json :=
  fun trace =>
    match generate_form_from_prompt prompt trace with
    | (Raise e, trace') => (Raise e, trace')
    | (Ok form_definition, trace') =>
        trigger_api form_definition
          (emit trace' (Log ERROR EmptyString (inl form_definition)))
    end.

End Callers.

(** ** The checks as the specification lists them

    The specification orders the checks: (1) the document is a mapping,
    (2) keys form, then formVersion, (3) formGroups, then per section in
    sequence order (a) refKey, (c) fields, (d) per field in sequence order
    the field type, the refKey, the refKey against the section's, and (e) the
    layout.  [violations] lists every violation of a document in that order,
    each check as the specification words it: a field without fieldType does
    not have one of the six allowed types (its type is listed as [None]), and
    the layout's sectionKey is compared with the refKey only if it is
    present.  A check that needs a value an earlier check found missing
    contributes nothing. *)

Inductive violation : Type :=
| NotAnObject
| MissingKey (key : string)
| MissingFormGroups
| SectionMissingRefKey (section_name : json)
| MissingFields
| InvalidFieldType (value : json)
| FieldMissingRefKey (field_name : json)
| RefKeyMismatch (field_name field_key section_key : json)
| LayoutMismatch (section_name : json).

Definition message (v : violation) : string :=
  match v with
  | NotAnObject => Msg.not_an_object
  | MissingKey key => Msg.missing_key key
  | MissingFormGroups => Msg.missing_form_groups
  | SectionMissingRefKey name => Msg.section_missing_ref_key name
  | MissingFields => Msg.missing_fields
  | InvalidFieldType value => Msg.invalid_field_type value
  | FieldMissingRefKey name => Msg.field_missing_ref_key name
  | RefKeyMismatch name fk sk => Msg.ref_key_mismatch name fk sk
  | LayoutMismatch name => Msg.layout_mismatch name
  end.

(** Fail fast: the first violation is the one reported. *)
Definition report (vs : list violation) : result unit :=
  match vs with
  | [] => Ok tt
  | v :: _ => Raise (ValueError (message v))
  end.

Module Spec.

Definition attr (key : string) (v : json) : option json :=
  match v with
  | JObj items => Py.assoc key items
  | _ => None
  end.

Definition name_of (v : json) : json :=
  match attr "name" v with
  | Some n => n
  | None => JStr "unnamed"
  end.

Definition elements (v : json) : list json :=
  match v with
  | JArr elems => elems
  | _ => []
  end.

Definition missing (key : string) (doc : json) : list violation :=
  match attr key doc with
  | Some _ => []
  | None => [MissingKey key]
  end.

Definition field_violations (section_key : option json) (field : json)
  : list violation :=
  (match attr "fieldType" field with
   | Some t => if in_valid_field_types t then [] else [InvalidFieldType t]
   | None => [InvalidFieldType JNull]
   end)
  ++ match attr "refKey" field with
     | None => [FieldMissingRefKey (name_of field)]
     | Some fk =>
         match section_key with
         | Some sk =>
             if Py.eq fk sk then []
             else [RefKeyMismatch (name_of field) fk sk]
         | None => []
         end
     end.

(** The layout of a section, when it carries one. *)
Definition layout_of (section : json) : option json :=
  match attr "configurations" section with
  | Some configurations => attr "layout" configurations
  | None => None
  end.

(** Check (e): "if configurations.layout.sectionKey is present, it must
    equal the section's refKey". *)
Definition layout_violations (section : json) : list violation :=
  match attr "refKey" section, layout_of section with
  | Some rk, Some layout =>
      match attr "sectionKey" layout with
      | Some k => if Py.eq k rk then [] else [LayoutMismatch (name_of section)]
      | None => []
      end
  | _, _ => []
  end.

Definition section_violations (section : json) : list violation :=
  (match attr "refKey" section with
   | Some _ => []
   | None => [SectionMissingRefKey (name_of section)]
   end)
  ++ (match attr "fields" section with
      | None => [MissingFields]
      | Some fields =>
          flat_map (field_violations (attr "refKey" section)) (elements fields)
      end)
  ++ layout_violations section.

Definition violations (doc : json) : list violation :=
  match doc with
  | JObj _ =>
      missing "form" doc ++ missing "formVersion" doc
      ++ match attr "formVersion" doc with
         | Some form_version =>
             match attr "formGroups" form_version with
             | None => [MissingFormGroups]
             | Some groups => flat_map section_violations (elements groups)
             end
         | None => []
         end
  | _ => [NotAnObject]
  end.

(** *** Documents of the shape of the data model

    Mappings where the data model has objects, sequences where it has
    sequences, a string, number, boolean or null as a section's refKey,
    a fieldType on every field and a sectionKey in every layout.  Which keys
    are present is otherwise left open: that is what the checks are about. *)




End Spec.

(** ** Vocabulary of the statements *)

(** The exceptions Python raises by itself, as opposed to the validator's
    own [ValueError]s. *)
Definition raw (e : exn) : bool :=
  match e with
  | ValueError _ => false
  | _ => true
  end.

(** The error of the layout check. *)
Definition layout_error (e : exn) : Prop :=
  exists name, e = ValueError (Msg.layout_mismatch name).

(** [r] is what failing fast on the violations [vs] gives, unless Python
    itself raised or the layout check did. *)
Definition refines (r : result unit) (vs : list violation) : Prop :=
  match r with
  | Ok _ => vs = []
  | Raise e => raw e = true \/ layout_error e \/ r = report vs
  end.

(** [s] occurs in [m] as a substring. *)
Definition occurs_in (s m : string) : Prop :=
  exists pre post, m = pre ++ s ++ post.

(** The sections of a document that passes the top-level checks and whose
    formGroups is a sequence. *)
Definition sections_of (doc : json) : option (list json) :=
  match Spec.attr "form" doc, Spec.attr "formVersion" doc with
  | Some _, Some form_version =>
      match Spec.attr "formGroups" form_version with
      | Some (JArr groups) => Some groups
      | _ => None
      end
  | _, _ => None
  end.

(** Every check ordered before those of [field] passes: the sections before
    [section] pass, [section] has a hashable refKey and a fields list, and
    the fields before [field] pass. *)
Definition field_reached (doc : json) (section field : list (string * json))
  : Prop :=
  exists pre post seen section_key fpre fpost,
    sections_of doc = Some (pre ++ JObj section :: post)%list
    /\ validate_groups pre Py.set_empty = Ok seen
    /\ Py.assoc "refKey" section = Some section_key
    /\ Py.hashable section_key = true
    /\ Py.assoc "fields" section = Some (JArr (fpre ++ JObj field :: fpost)%list)
    /\ validate_fields (JObj section) fpre = Ok tt.

(** Every check ordered before the layout check of [section] passes: the
    sections before it pass, and so do its own keys and its fields. *)
Definition layout_reached (doc : json) (section : list (string * json)) : Prop :=
  exists pre post seen seen',
    sections_of doc = Some (pre ++ JObj section :: post)%list
    /\ validate_groups pre Py.set_empty = Ok seen
    /\ check_section (JObj section) seen = Ok seen'.

(** Further sample documents. *)

Definition section_layout_without_key : list (string * json) :=
  [("refKey", JStr "a"); ("fields", JArr []);
   ("configurations", JObj [("layout", JObj [("column", JInt 1)])])].

Definition section_layout_z : list (string * json) :=
  [("name", JStr "Personal Information"); ("refKey", JStr "a");
   ("fields", JArr []);
   ("configurations", JObj [("layout", JObj [("sectionKey", JStr "z")])])].

Definition field_without_type : list (string * json) :=
  [("name", JStr "Full Name"); ("refKey", JStr "s1")].




Definition document_duplicate_ref_keys : json :=
  mk_document [mk_section "s1" [mk_field "text" "s1"];
               mk_section "s1" [mk_field "radio" "s1"]].

Definition document_p1 : json :=
  mk_document [mk_section "s1" [mk_field "text" "s1"]].

(** ** The request boundary (src/app.py) *)

(** What [create_form] hands the web framework: the response, or an
    [HTTPException].  The exception's [detail] is [str(e)]; it is kept here
    as the exception [e] it is the description of. *)
Inductive http_outcome : Type :=
| Returned (response : json)
| HTTPException (status_code : Z) (detail : exn).

Section Boundary.

Variable chain_invoke : string -> result json.
Variable remote : string -> string -> json -> result json.
Variable FORM_API_BASE_URL FORM_API_TOKEN : option string.

(** [create_form]: every exception of the service becomes a status 500. *)
Definition create_form (prompt : string) : list event -> http_outcome * list event :=
  fun trace =>
    match create_and_trigger_form chain_invoke remote
            FORM_API_BASE_URL FORM_API_TOKEN prompt trace with
    | (Ok response, trace') => (Returned response, trace')
    | (Raise e, trace') => (HTTPException 500 e, trace')
    end.

End Boundary.

(** ** Further vocabulary *)

(** The sections before [section] pass, so the validator gets to it. *)
Definition section_reached (doc section : json) : Prop :=
  exists pre post seen,
    sections_of doc = Some (pre ++ section :: post)%list
    /\ validate_groups pre Py.set_empty = Ok seen.

(** [v in s], for a set [s]. *)
Definition set_mem (v : json) (s : Py.pyset) : bool := existsb (Py.eq v) s.

(** The exceptions the validator lets out: its own [ValueError]s, and of
    Python's the [TypeError], the [AttributeError] and the [KeyError] on
    "fieldType". *)
Definition raised_by_validator (e : exn) : bool :=
  match e with
  | ValueError _ | TypeError | AttributeError => true
  | KeyError key => String.eqb key "fieldType"
  | JSONDecodeError | UnboundLocalError | ExternalError _ => false
  end.

(** The keys the validator reads in a section and in a field. *)
Definition section_keys : list string :=
  ["refKey"; "name"; "fields"; "configurations"].

Definition field_keys : list string := ["fieldType"; "refKey"; "name"].

(** A field as the validator lets it through under a section of refKey
    [section_key]. *)
Definition linked_field (section_key field : json) : Prop :=
  exists items field_type field_key,
    field = JObj items
    /\ Py.assoc "fieldType" items = Some field_type
    /\ (exists s, field_type = JStr s /\ In s valid_field_types)
    /\ Py.assoc "refKey" items = Some field_key
    /\ Py.eq field_key section_key = true.

(** A section as the validator lets it through. *)
Definition linked_section (section : json) : Prop :=
  exists items ref_key fields field_list,
    section = JObj items
    /\ Py.assoc "refKey" items = Some ref_key
    /\ Py.hashable ref_key = true
    /\ Py.assoc "fields" items = Some fields
    /\ Py.iter fields = Ok field_list
    /\ Forall (linked_field ref_key) field_list
    /\ (forall conf layout,
           Py.assoc "configurations" items = Some (JObj conf) ->
           Py.assoc "layout" conf = Some (JObj layout) ->
           exists k, Py.get (JObj layout) "sectionKey" JNull = Ok k
                     /\ Py.eq k ref_key = true).

(** ** The validator over the object store

    A second embedding of [_validate_form_structure], with the objects Python
    works on made explicit.  A dict, a list or a set is an object of a heap
    and is held by reference, so the sections and fields the validator
    iterates over alias the document it was given, and the heap is whatever
    the process holds when the call starts, the objects earlier calls left
    included.  [in], subscription, [.get], iteration, [!=] and formatting
    read the heap; [set()] allocates an object and [.add] writes to one.
    Strings, numbers and exceptions are values, not objects. *)

Module Store.

Definition loc : Type := nat.

Inductive pyval : Type :=
| VNone
| VBool (b : bool)
| VInt (n : Z)
| VStr (s : string)
| VRef (l : loc).

Inductive pyobj : Type :=
| OList (elems : list pyval)
| ODict (items : list (string * pyval))
| OSet (elems : list pyval).

Definition heap : Type := list pyobj.

(** A computation runs on a heap and leaves one, also when it raises. *)
Definition M (A : Type) : Type := heap -> result A * heap.

Definition ret {A : Type} (a : A) : M A := fun h => (Ok a, h).

Definition bind {A B : Type} (m : M A) (k : A -> M B) : M B :=
  fun h =>
    match m h with
    | (Ok a, h') => k a h'
    | (Raise e, h') => (Raise e, h')
    end.

Notation "x <~ c ;; k" := (bind c (fun x => k))
  (at level 61, c at next level, right associativity).

(** An operation that only reads the heap. *)
Definition read {A : Type} (f : heap -> result A) : M A := fun h => (f h, h).

(** [raise ValueError(msg)], the message formatted on the current heap. *)
Definition fail {A : Type} (msg : heap -> string) : M A :=
  fun h => (Raise (ValueError (msg h)), h).

(** *** The JSON value a Python value stands for *)

Fixpoint traverse {A B : Type} (f : A -> option B) (l : list A)
  : option (list B) :=
  match l with
  | [] => Some []
  | x :: rest =>
      match f x, traverse f rest with
      | Some y, Some ys => Some (y :: ys)
      | _, _ => None
      end
  end.

(** Following at most [fuel] references deep; [None] when that is not
    enough, a reference is dangling or a set is met. *)
Fixpoint reify (fuel : nat) (h : heap) (v : pyval) {struct fuel} : option json :=
  match v with
  | VNone => Some JNull
  | VBool b => Some (JBool b)
  | VInt n => Some (JInt n)
  | VStr s => Some (JStr s)
  | VRef l =>
      match fuel with
      | O => None
      | S fuel' =>
          match nth_error h l with
          | Some (OList elems) => option_map JArr (traverse (reify fuel' h) elems)
          | Some (ODict items) =>
              option_map JObj
                (traverse (fun kv => option_map (pair (fst kv))
                                                (reify fuel' h (snd kv))) items)
          | Some (OSet _) | None => None
          end
      end
  end.

(** [v] stands for a JSON document in [h]: no chain of references is longer
    than the heap has objects. *)
Definition value_of (h : heap) (v : pyval) : option json :=
  reify (List.length h) h v.

Definition value (h : heap) (v : pyval) : json :=
  match value_of h v with
  | Some j => j
  | None => JNull
  end.

(** *** Python operations on the heap *)

Fixpoint lookup (key : string) (items : list (string * pyval)) : option pyval :=
  match items with
  | [] => None
  | (k, v) :: rest => if String.eqb key k then Some v else lookup key rest
  end.

Fixpoint chars (s : string) : list pyval :=
  match s with
  | EmptyString => []
  | String c rest => VStr (String c EmptyString) :: chars rest
  end.

(** [a == b] compares the values the operands stand for, and formatting
    formats the value its operand stands for. *)
Definition eq (h : heap) (a b : pyval) : bool := Py.eq (value h a) (value h b).

Definition ne (h : heap) (a b : pyval) : bool := negb (eq h a b).

Definition is_dict (h : heap) (v : pyval) : bool :=
  match v with
  | VRef l =>
      match nth_error h l with
      | Some (ODict _) => true
      | _ => false
      end
  | _ => false
  end.

Definition contains (key : string) (v : pyval) (h : heap) : result bool :=
  match v with
  | VStr s => Ok (Py.str_contains key s)
  | VRef l =>
      match nth_error h l with
      | Some (ODict items) =>
          Ok (match lookup key items with Some _ => true | None => false end)
      | Some (OList elems) | Some (OSet elems) =>
          Ok (existsb (eq h (VStr key)) elems)
      | None => Raise TypeError
      end
  | VNone | VBool _ | VInt _ => Raise TypeError
  end.

Definition getitem (v : pyval) (key : string) (h : heap) : result pyval :=
  match v with
  | VRef l =>
      match nth_error h l with
      | Some (ODict items) =>
          match lookup key items with
          | Some x => Ok x
          | None => Raise (KeyError key)
          end
      | _ => Raise TypeError
      end
  | _ => Raise TypeError
  end.

Definition get (v : pyval) (key : string) (default : pyval) (h : heap)
  : result pyval :=
  match v with
  | VRef l =>
      match nth_error h l with
      | Some (ODict items) =>
          Ok (match lookup key items with Some x => x | None => default end)
      | _ => Raise AttributeError
      end
  | _ => Raise AttributeError
  end.

Definition iter (v : pyval) (h : heap) : result (list pyval) :=
  match v with
  | VStr s => Ok (chars s)
  | VRef l =>
      match nth_error h l with
      | Some (OList elems) | Some (OSet elems) => Ok elems
      | Some (ODict items) => Ok (map (fun kv => VStr (fst kv)) items)
      | None => Raise TypeError
      end
  | VNone | VBool _ | VInt _ => Raise TypeError
  end.

(** Lists, dicts and sets cannot be hashed. *)
Definition hashable (v : pyval) : bool :=
  match v with
  | VRef _ => false
  | _ => true
  end.

Fixpoint update (l : loc) (o : pyobj) (h : heap) : heap :=
  match h, l with
  | [], _ => []
  | _ :: rest, O => o :: rest
  | x :: rest, S l' => x :: update l' o rest
  end.

(** [set()]: a new object, at the next free location. *)
Definition new_set : M pyval :=
  fun h => (Ok (VRef (List.length h)), (h ++ [OSet []])%list).

(** [s.add(v)]: writes to the set [s] refers to. *)
Definition set_add (s v : pyval) : M unit :=
  fun h =>
    match s with
    | VRef l =>
        match nth_error h l with
        | Some (OSet elems) =>
            if hashable v then
              (Ok tt,
               if existsb (eq h v) elems then h
               else update l (OSet (v :: elems)) h)
            else (Raise TypeError, h)
        | _ => (Raise AttributeError, h)
        end
    | _ => (Raise AttributeError, h)
    end.

(** *** The validator *)

Definition in_valid_field_types (h : heap) (v : pyval) : bool :=
  existsb (fun t => eq h v (VStr t)) valid_field_types.

Fixpoint check_required_keys (keys : list string) (form_definition : pyval)
  : M unit :=
  match keys with
  | [] => ret tt
  | key :: rest =>
      present <~ read (contains key form_definition) ;;
      if negb present then fail (fun _ => Msg.missing_key key)
      else check_required_keys rest form_definition
  end.

Definition validate_field (group field : pyval) : M unit :=
  field_type <~ read (getitem field "fieldType") ;;
  valid <~ read (fun h => Ok (in_valid_field_types h field_type)) ;;
  if negb valid then
    fail (fun h => Msg.invalid_field_type (value h field_type))
  else
    has_ref <~ read (contains "refKey" field) ;;
    if negb has_ref then
      name <~ read (get field "name" (VStr "unnamed")) ;;
      fail (fun h => Msg.field_missing_ref_key (value h name))
    else
      field_key <~ read (getitem field "refKey") ;;
      section_key <~ read (getitem group "refKey") ;;
      differ <~ read (fun h => Ok (ne h field_key section_key)) ;;
      if differ then
        name <~ read (get field "name" (VStr "unnamed")) ;;
        fail (fun h => Msg.ref_key_mismatch (value h name) (value h field_key)
                                            (value h section_key))
      else ret tt.

Fixpoint validate_fields (group : pyval) (fields : list pyval) : M unit :=
  match fields with
  | [] => ret tt
  | field :: rest =>
      _ <~ validate_field group field ;;
      validate_fields group rest
  end.

Definition check_section (group section_ref_keys : pyval) : M unit :=
  has_ref <~ read (contains "refKey" group) ;;
  if negb has_ref then
    name <~ read (get group "name" (VStr "unnamed")) ;;
    fail (fun h => Msg.section_missing_ref_key (value h name))
  else
    ref_key <~ read (getitem group "refKey") ;;
    _ <~ set_add section_ref_keys ref_key ;;
    has_fields <~ read (contains "fields" group) ;;
    if negb has_fields then fail (fun _ => Msg.missing_fields)
    else
      fields <~ read (getitem group "fields") ;;
      field_list <~ read (iter fields) ;;
      validate_fields group field_list.

Definition check_layout (group : pyval) : M unit :=
  has_conf <~ read (contains "configurations" group) ;;
  has_layout <~ (if has_conf then
                   configurations <~ read (getitem group "configurations") ;;
                   read (contains "layout" configurations)
                 else ret false) ;;
  if has_layout then
    configurations <~ read (getitem group "configurations") ;;
    layout <~ read (getitem configurations "layout") ;;
    section_key <~ read (get layout "sectionKey" VNone) ;;
    ref_key <~ read (getitem group "refKey") ;;
    differ <~ read (fun h => Ok (ne h section_key ref_key)) ;;
    if differ then
      name <~ read (get group "name" (VStr "unnamed")) ;;
      fail (fun h => Msg.layout_mismatch (value h name))
    else ret tt
  else ret tt.

Definition validate_group (group section_ref_keys : pyval) : M unit :=
  _ <~ check_section group section_ref_keys ;;
  check_layout group.

Fixpoint validate_groups (groups : list pyval) (section_ref_keys : pyval)
  : M unit :=
  match groups with
  | [] => ret tt
  | group :: rest =>
      _ <~ validate_group group section_ref_keys ;;
      validate_groups rest section_ref_keys
  end.

Definition _validate_form_structure (form_definition : pyval) : M unit :=
  is_object <~ read (fun h => Ok (is_dict h form_definition)) ;;
  if negb is_object then fail (fun _ => Msg.not_an_object)
  else
    _ <~ check_required_keys required_keys form_definition ;;
    form_version <~ read (getitem form_definition "formVersion") ;;
    has_groups <~ read (contains "formGroups" form_version) ;;
    if negb has_groups then fail (fun _ => Msg.missing_form_groups)
    else
      section_ref_keys <~ new_set ;;
      form_groups <~ read (getitem form_version "formGroups") ;;
      groups <~ read (iter form_groups) ;;
      validate_groups groups section_ref_keys.

(** *** Vocabulary of the statements *)

(** [v] stands for [j] in [h], by references no deeper than [h] has
    objects. *)
Definition stands_for (h : heap) (v : pyval) (j : json) : Prop :=
  exists fuel, (fuel <= List.length h)%nat /\ reify fuel h v = Some j.

(** What a computation on the heap gives against what its counterpart on
    values gives. *)
Definition agree {A B : Type} (R : A -> B -> Prop)
           (r : result A) (p : result B) : Prop :=
  match r, p with
  | Ok a, Ok b => R a b
  | Raise e, Raise e' => e = e'
  | _, _ => False
  end.

(** [m] does on the heap what [p] does on values, and leaves the heap as it
    is, whatever objects follow those of [h]. *)
Definition simulates {A B : Type} (R : A -> B -> Prop) (h : heap)
           (m : M A) (p : result B) : Prop :=
  forall t, exists r, m (h ++ t)%list = (r, (h ++ t)%list) /\ agree R r p.

(** *** A sample heap: the document of P1 after an earlier call's set *)

Definition heap_p1 : heap :=
  [OSet [VStr "earlier"];
   ODict [("fieldType", VStr "text"); ("refKey", VStr "s1")];
   OList [VRef 1];
   ODict [("refKey", VStr "s1"); ("fields", VRef 2)];
   OList [VRef 3];
   ODict [("formGroups", VRef 4)];
   ODict [];
   ODict [("form", VRef 6); ("formVersion", VRef 5)]].

End Store.

(** * Properties *)

(** ** The validator on small documents *)

Example repr_of_nested_value :
  Py.repr (JObj [("a", JArr [JInt (-12); JBool true; JNull]); ("b", JStr "x")])
  = "{'a': [-12, True, None], 'b': 'x'}".
Proof. reflexivity. Qed.

Example p2_missing_form_version :
  _validate_form_structure (JObj [("form", JObj [])])
  = Raise (ValueError "Response must contain 'formVersion' field").
Proof. reflexivity. Qed.

Example p3_invalid_field_type :
  _validate_form_structure (mk_document [mk_section "s1" [mk_field "date" "s1"]])
  = Raise (ValueError "Invalid field type: date").
Proof. reflexivity. Qed.

Example p4_ref_key_mismatch :
  _validate_form_structure (mk_document [mk_section "a" [mk_field "text" "b"]])
  = Raise (ValueError
             "Field 'unnamed' has refKey 'b' that doesn't match its section refKey 'a'").
Proof. reflexivity. Qed.

Example section_that_is_a_number :
  _validate_form_structure (mk_document [JInt 7]) = Raise TypeError.
Proof. reflexivity. Qed.

Example unhashable_section_ref_key :
  _validate_form_structure
    (mk_document [JObj [("refKey", JArr []); ("fields", JArr [])]])
  = Raise TypeError.
Proof. reflexivity. Qed.

Example null_ref_key_and_layout_without_section_key :
  _validate_form_structure
    (mk_document [JObj [("refKey", JNull); ("fields", JArr []);
                        ("configurations", JObj [("layout", JObj [])])]])
  = Ok tt.
Proof. reflexivity. Qed.

(** ** Generic facts *)

Lemma outcome_bind {A B : Type} (r : result A) (k : A -> result B) :
  outcome (x <- r ;; k x) = (x <- r ;; outcome (k x)).
Proof. destruct r; reflexivity. Qed.


Lemma refines_raw e vs : raw e = true -> refines (Raise e) vs.
Proof. intros H. left. exact H. Qed.

Lemma refines_eq r vs : r = report vs -> refines r vs.
Proof.
  intros ->. destruct vs; cbn [report refines]; [reflexivity|].
  right. right. reflexivity.
Qed.

(** An error stays the refinement of a list that more violations follow. *)
Lemma refines_raise_app e v1 v2 :
  refines (Raise e) v1 -> refines (Raise e) (v1 ++ v2).
Proof.
  cbn [refines]. intros [H|[H|H]]; auto.
  destruct v1 as [|v rest]; [discriminate H|]. right. right. exact H.
Qed.

(** Sequencing two checks lists the violations of the first before those of
    the second. *)
Lemma refines_app (r1 r2 : result unit) (v1 v2 : list violation) :
  refines r1 v1 -> (r1 = Ok tt -> refines r2 v2) ->
  refines (_ <- r1 ;; r2) (v1 ++ v2).
Proof.
  destruct r1 as [[]|e]; cbn [bind].
  - cbn [refines]. intros -> H. apply H. reflexivity.
  - intros H _. apply refines_raise_app, H.
Qed.

(** ** The validator against the ordered list of violations *)

Lemma validate_field_refines items sk field :
  Py.assoc "refKey" items = Some sk ->
  refines (validate_field (JObj items) field)
          (Spec.field_violations (Some sk) field).
Proof.
  intros Hrk.
  destruct field as [| | | | |fitems]; try (apply refines_raw; reflexivity).
  unfold validate_field, Spec.field_violations, Spec.name_of, Spec.attr,
    Py.getitem, Py.contains, Py.get.
  rewrite Hrk.
  destruct (Py.assoc "fieldType" fitems) as [t|]; cbn [bind];
    [|apply refines_raw; reflexivity].
  destruct (in_valid_field_types t); cbn [negb app];
    [|apply refines_eq; reflexivity].
  destruct (Py.assoc "refKey" fitems) as [fk|]; cbn [negb app bind];
    [|apply refines_eq; reflexivity].
  unfold Py.ne. destruct (Py.eq fk sk); apply refines_eq; reflexivity.
Qed.

Lemma validate_fields_refines items sk fields :
  Py.assoc "refKey" items = Some sk ->
  refines (validate_fields (JObj items) fields)
          (flat_map (Spec.field_violations (Some sk)) fields).
Proof.
  intros Hrk. induction fields as [|f rest IH]; [reflexivity|].
  cbn [validate_fields flat_map].
  apply refines_app; [apply validate_field_refines, Hrk|intros _; exact IH].
Qed.

(** Iterating over a dict or a string yields strings, and a string is not a
    field: subscripting it with "fieldType" is a [TypeError]. *)
Lemma validate_fields_of_strings group (l : list json) :
  Forall (fun x => exists s, x = JStr s) l ->
  l = [] \/ validate_fields group l = Raise TypeError.
Proof.
  intros H. destruct H as [|x l [s ->] _]; [left|right]; reflexivity.
Qed.

Lemma keys_are_strings (items : list (string * json)) :
  Forall (fun x => exists s, x = JStr s) (map (fun kv => JStr (fst kv)) items).
Proof. induction items; constructor; eauto. Qed.

Lemma chars_are_strings (s : string) :
  Forall (fun x => exists t, x = JStr t) (Py.chars s).
Proof. induction s; constructor; eauto. Qed.

Lemma refines_seq {A : Type} (r1 : result A) (k : A -> result unit)
      (v1 v2 : list violation) :
  refines (outcome r1) v1 -> (forall a, r1 = Ok a -> refines (k a) v2) ->
  refines (x <- r1 ;; k x) (v1 ++ v2).
Proof.
  destruct r1 as [a|e]; cbn [bind outcome].
  - cbn [refines]. intros -> H. apply H. reflexivity.
  - intros H _. apply refines_raise_app, H.
Qed.

Lemma check_layout_refines items rk :
  Py.assoc "refKey" items = Some rk ->
  refines (check_layout (JObj items)) (Spec.layout_violations (JObj items)).
Proof.
  intros Hrk.
  unfold check_layout, Spec.layout_violations, Spec.layout_of.
  unfold Spec.attr at 1 2. unfold Py.contains at 1. unfold Py.getitem at 1 2 4.
  rewrite Hrk.
  destruct (Py.assoc "configurations" items) as [conf|]; cbn [bind]; [|reflexivity].
  destruct conf as [| | |s|l|conf]; try (apply refines_raw; reflexivity).
  - cbn [Py.contains Spec.attr bind].
    destruct (Py.str_contains "layout" s); [apply refines_raw|]; reflexivity.
  - cbn [Py.contains Spec.attr bind].
    destruct (existsb _ l); [apply refines_raw|]; reflexivity.
  - cbn [Py.contains Py.getitem Spec.attr bind].
    destruct (Py.assoc "layout" conf) as [layout|]; cbn [bind]; [|reflexivity].
    destruct layout as [| | | | |layout]; try (apply refines_raw; reflexivity).
    unfold Spec.name_of, Spec.attr, Py.get, Py.ne. cbn [bind].
    destruct (Py.assoc "sectionKey" layout) as [k|].
    + destruct (Py.eq k rk); apply refines_eq; reflexivity.
    + destruct (Py.eq JNull rk); cbn [negb bind]; [reflexivity|].
      right. left. eexists. reflexivity.
Qed.

Lemma validate_group_refines group seen :
  refines (outcome (validate_group group seen)) (Spec.section_violations group).
Proof.
  destruct group as [| | |s|l|items]; try (apply refines_raw; reflexivity).
  - unfold validate_group, check_section. cbn [Py.contains bind].
    destruct (Py.str_contains "refKey" s); apply refines_raw; reflexivity.
  - unfold validate_group, check_section. cbn [Py.contains bind].
    destruct (existsb _ l); apply refines_raw; reflexivity.
  - unfold validate_group, check_section, Spec.section_violations.
    unfold Spec.attr at 1 2 3. unfold Spec.name_of, Spec.attr.
    unfold Py.contains at 1 2. unfold Py.getitem at 1 2. unfold Py.get at 1.
    destruct (Py.assoc "refKey" items) as [rk|] eqn:Erk; cbn [bind negb app];
      [|apply refines_eq; reflexivity].
    unfold Py.set_add.
    destruct (Py.hashable rk); cbn [bind]; [|apply refines_raw; reflexivity].
    destruct (Py.assoc "fields" items) as [fields|] eqn:Ef; cbn [bind negb app];
      [|apply refines_eq; reflexivity].
    assert (Hlay := check_layout_refines items rk Erk).
    assert (Hstrings : forall strs,
               Forall (fun x => exists s, x = JStr s) strs ->
               refines
                 (outcome
                    (x <- (_ <- validate_fields (JObj items) strs ;;
                           Ok (if existsb (Py.eq rk) seen then seen else rk :: seen)) ;;
                     _ <- check_layout (JObj items) ;; Ok x))
                 (Spec.layout_violations (JObj items))).
    { intros strs Hs.
      destruct (validate_fields_of_strings (JObj items) strs Hs) as [->| ->];
        [|apply refines_raw; reflexivity].
      cbn [validate_fields bind].
      destruct (check_layout (JObj items)) as [[]|e]; exact Hlay. }
    destruct fields as [| | |s|fields|fitems];
      try (apply refines_raw; reflexivity); cbn [Py.iter Spec.elements bind flat_map].
    + apply Hstrings, chars_are_strings.
    + assert (Hf := validate_fields_refines items rk fields Erk).
      destruct (validate_fields (JObj items) fields) as [[]|e]; cbn [bind outcome].
      * cbn [refines] in Hf. rewrite Hf. cbn [app].
        destruct (check_layout (JObj items)) as [[]|e]; exact Hlay.
      * apply refines_raise_app, Hf.
    + apply Hstrings, keys_are_strings.
Qed.

Lemma validate_groups_refines groups seen :
  refines (outcome (validate_groups groups seen))
          (flat_map Spec.section_violations groups).
Proof.
  revert seen. induction groups as [|g rest IH]; intros seen; [reflexivity|].
  cbn [validate_groups flat_map]. rewrite outcome_bind.
  apply refines_seq; [apply validate_group_refines|intros seen' _; apply IH].
Qed.

(** A string is not a section either. *)
Lemma validate_groups_of_strings (l : list json) seen :
  Forall (fun x => exists s, x = JStr s) l ->
  l = [] \/ exists e, validate_groups l seen = Raise e /\ raw e = true.
Proof.
  intros H. destruct H as [|x l [s ->] _]; [left; reflexivity|right].
  cbn [validate_groups]. unfold validate_group, check_section.
  cbn [Py.contains bind].
  destruct (Py.str_contains "refKey" s); cbn [negb bind Py.getitem Py.get]; eauto.
Qed.

Lemma validate_refines doc :
  refines (_validate_form_structure doc) (Spec.violations doc).
Proof.
  destruct doc as [| | | | |items]; try (apply refines_eq; reflexivity).
  unfold _validate_form_structure, Spec.violations, Spec.missing, required_keys.
  cbn [Py.is_dict negb check_required_keys].
  unfold Spec.attr at 1 2 3. unfold Py.contains at 1 2. unfold Py.getitem at 1.
  destruct (Py.assoc "form" items) as [form|]; cbn [bind negb app];
    [|apply refines_eq; reflexivity].
  destruct (Py.assoc "formVersion" items) as [fv|]; cbn [bind negb app];
    [|apply refines_eq; reflexivity].
  destruct fv as [| | |s|l|fv]; try (apply refines_raw; reflexivity).
  - cbn [Py.contains Spec.attr bind].
    destruct (Py.str_contains "formGroups" s);
      [apply refines_raw|apply refines_eq]; reflexivity.
  - cbn [Py.contains Spec.attr bind].
    destruct (existsb _ l); [apply refines_raw|apply refines_eq]; reflexivity.
  - unfold Spec.attr, Py.contains, Py.getitem.
    destruct (Py.assoc "formGroups" fv) as [groups|]; cbn [bind negb];
      [|apply refines_eq; reflexivity].
    assert (Hstrings : forall strs,
               Forall (fun x => exists s, x = JStr s) strs ->
               refines (_ <- validate_groups strs Py.set_empty ;; Ok tt) []).
    { intros strs Hs.
      destruct (validate_groups_of_strings strs Py.set_empty Hs) as [->|[e [-> He]]];
        [reflexivity|apply refines_raw, He]. }
    destruct groups as [| | |s|groups|gitems];
      try (apply refines_raw; reflexivity); cbn [Py.iter Spec.elements bind flat_map].
    + apply Hstrings, chars_are_strings.
    + assert (Hg := validate_groups_refines groups Py.set_empty).
      destruct (validate_groups groups Py.set_empty); exact Hg.
    + apply Hstrings, keys_are_strings.
Qed.

(** On documents of the data model's shape Python never raises by itself. *)






(** ** Reaching a check *)

Lemma str_app_assoc (a b c : string) : (a ++ b) ++ c = a ++ (b ++ c).
Proof. induction a as [|x a IH]; cbn; [reflexivity|]. now rewrite IH. Qed.

Lemma occurs_in_mid (a s b : string) : occurs_in s (a ++ s ++ b).
Proof. exists a, b. reflexivity. Qed.

Lemma validate_fields_app group pre rest :
  validate_fields group (pre ++ rest)%list
  = (_ <- validate_fields group pre ;; validate_fields group rest).
Proof.
  induction pre as [|f pre IH]; [reflexivity|].
  cbn [app validate_fields]. rewrite IH.
  destruct (validate_field group f); reflexivity.
Qed.

Lemma validate_groups_app pre rest seen :
  validate_groups (pre ++ rest)%list seen
  = (seen' <- validate_groups pre seen ;; validate_groups rest seen').
Proof.
  revert seen. induction pre as [|g pre IH]; intros seen; [reflexivity|].
  cbn [app validate_groups].
  destruct (validate_group g seen) as [seen'|e]; cbn [bind]; [apply IH|reflexivity].
Qed.

Lemma validate_sections doc groups :
  sections_of doc = Some groups ->
  _validate_form_structure doc = outcome (validate_groups groups Py.set_empty).
Proof.
  unfold sections_of. destruct doc as [| | | | |items]; try discriminate.
  unfold _validate_form_structure, required_keys.
  cbn [Py.is_dict negb check_required_keys Spec.attr Py.contains Py.getitem].
  destruct (Py.assoc "form" items) as [form|]; [|discriminate].
  destruct (Py.assoc "formVersion" items) as [fv|]; [|discriminate].
  destruct fv as [| | | | |fv]; try discriminate.
  cbn [bind negb Spec.attr Py.contains Py.getitem].
  destruct (Py.assoc "formGroups" fv) as [g|]; [|discriminate].
  destruct g as [| | | |gs|]; try discriminate.
  intros [= ->]. cbn [bind negb Py.iter].
  destruct (validate_groups groups Py.set_empty); reflexivity.
Qed.

(** An exception raised in a section that is reached is the validator's. *)
Lemma section_raise doc pre g post seen e :
  sections_of doc = Some (pre ++ g :: post)%list ->
  validate_groups pre Py.set_empty = Ok seen ->
  validate_group g seen = Raise e ->
  _validate_form_structure doc = Raise e.
Proof.
  intros Hdoc Hpre Hg.
  rewrite (validate_sections doc _ Hdoc), validate_groups_app, Hpre.
  cbn [bind validate_groups]. rewrite Hg. reflexivity.
Qed.

Lemma field_reached_raise doc section field e :
  field_reached doc section field ->
  validate_field (JObj section) (JObj field) = Raise e ->
  _validate_form_structure doc = Raise e.
Proof.
  intros (pre & post & seen & sk & fpre & fpost & Hdoc & Hpre & Hrk & Hh & Hf & Hfpre) He.
  apply (section_raise doc pre (JObj section) post seen e Hdoc Hpre).
  unfold validate_group, check_section. cbn [Py.contains Py.getitem].
  rewrite Hrk. cbn [bind negb]. unfold Py.set_add. rewrite Hh, Hf.
  cbn [bind negb Py.iter].
  rewrite validate_fields_app, Hfpre. cbn [bind validate_fields].
  rewrite He. reflexivity.
Qed.

Lemma layout_reached_raise doc section e :
  layout_reached doc section ->
  check_layout (JObj section) = Raise e ->
  _validate_form_structure doc = Raise e.
Proof.
  intros (pre & post & seen & seen' & Hdoc & Hpre & Hsec) He.
  apply (section_raise doc pre (JObj section) post seen e Hdoc Hpre).
  unfold validate_group. rewrite Hsec. cbn [bind]. rewrite He. reflexivity.
Qed.

(** ** The working set *)

(** What a section does never depends on the keys seen so far. *)
Lemma check_section_seen group seen seen' :
  outcome (check_section group seen) = outcome (check_section group seen').
Proof.
  unfold check_section.
  destruct (Py.contains "refKey" group) as [[]|]; cbn [bind negb]; [|reflexivity..].
  destruct (Py.getitem group "refKey") as [rk|]; cbn [bind]; [|reflexivity].
  unfold Py.set_add. destruct (Py.hashable rk); cbn [bind]; [|reflexivity].
  destruct (Py.contains "fields" group) as [[]|]; cbn [bind negb]; [|reflexivity..].
  destruct (Py.getitem group "fields") as [fs|]; cbn [bind]; [|reflexivity].
  destruct (Py.iter fs) as [l|]; cbn [bind]; [|reflexivity].
  destruct (validate_fields group l); reflexivity.
Qed.

Lemma validate_group_seen group seen seen' :
  outcome (validate_group group seen) = outcome (validate_group group seen').
Proof.
  unfold validate_group. rewrite !outcome_bind.
  assert (H := check_section_seen group seen seen').
  destruct (check_section group seen), (check_section group seen');
    cbn [outcome bind] in *; try discriminate; [|exact H].
  destruct (check_layout group); reflexivity.
Qed.

Lemma validate_groups_seen groups seen seen' :
  outcome (validate_groups groups seen) = outcome (validate_groups groups seen').
Proof.
  revert seen seen'. induction groups as [|g rest IH]; intros seen seen';
    [reflexivity|].
  cbn [validate_groups]. rewrite !outcome_bind.
  assert (H := validate_group_seen g seen seen').
  destruct (validate_group g seen), (validate_group g seen');
    cbn [outcome bind] in *; try discriminate; [apply IH|exact H].
Qed.

(** ** The allowed field types *)

Lemma in_valid_field_types_spec (t : json) :
  in_valid_field_types t = true <-> exists s, t = JStr s /\ In s valid_field_types.
Proof.
  unfold in_valid_field_types. rewrite existsb_exists. split.
  - intros (s & Hin & Heq). exists s. split; [|exact Hin].
    destruct t; try discriminate. cbn [Py.eq] in Heq.
    apply String.eqb_eq in Heq. now subst.
  - intros (s & -> & Hin). exists s. split; [exact Hin|].
    cbn [Py.eq]. apply String.eqb_refl.
Qed.

Lemma posted_emit trace ev :
  posted (emit trace ev)
  = (posted trace ++ match ev with Post _ _ p => [p] | Log _ _ _ => [] end)%list.
Proof.
  unfold emit. induction trace as [|x trace IH]; cbn [app posted].
  - destruct ev; reflexivity.
  - destruct x; rewrite IH; reflexivity.
Qed.

(** ** The claims *)

(** C1, as the specification words it, fails: a section whose layout is
    present but carries no sectionKey passes every other check and is
    rejected by the layout check. *)
Lemma layout_without_section_key_rejected :
  Py.assoc "configurations" section_layout_without_key
    = Some (JObj [("layout", JObj [("column", JInt 1)])])
  /\ Py.contains "sectionKey" (JObj [("column", JInt 1)]) = Ok false
  /\ check_section (JObj section_layout_without_key) Py.set_empty = Ok [JStr "a"]
  /\ _validate_form_structure (mk_document [JObj section_layout_without_key])
     = Raise (ValueError
                "Section 'unnamed' has mismatched sectionKey in layout configuration").
Proof. repeat split. Qed.

(** C1, amended: the layout check applies whenever configurations.layout is
    present.  For a section that reaches the check and whose layout is an
    object, a sectionKey that is present and differs from the section's
    refKey, or that is absent while the refKey is not null, makes validation
    fail with a [ValueError] naming the section (by its name, or "unnamed");
    a section with no configurations, or whose configurations carry no
    layout, passes the check. *)
Theorem layout_check_gated_on_layout doc section ref_key name :
  layout_reached doc section ->
  Py.assoc "refKey" section = Some ref_key ->
  Py.get (JObj section) "name" (JStr "unnamed") = Ok name ->
  (forall conf layout,
      Py.assoc "configurations" section = Some (JObj conf) ->
      Py.assoc "layout" conf = Some (JObj layout) ->
      (forall k, Py.assoc "sectionKey" layout = Some k -> Py.ne k ref_key = true ->
                 _validate_form_structure doc
                 = Raise (ValueError (Msg.layout_mismatch name))
                 /\ occurs_in (Py.str name) (Msg.layout_mismatch name))
      /\ (Py.assoc "sectionKey" layout = None -> Py.ne JNull ref_key = true ->
          _validate_form_structure doc
          = Raise (ValueError (Msg.layout_mismatch name))
          /\ occurs_in (Py.str name) (Msg.layout_mismatch name)))
  /\ (Py.assoc "configurations" section = None
      \/ (exists conf, Py.assoc "configurations" section = Some (JObj conf)
                       /\ Py.assoc "layout" conf = None) ->
      check_layout (JObj section) = Ok tt).
Proof.
  intros Hreach Hrk Hname. split.
  - intros conf layout Hconf Hlay.
    assert (Hocc : occurs_in (Py.str name) (Msg.layout_mismatch name))
      by apply occurs_in_mid.
    assert (Hfail : forall sk,
               Py.get (JObj layout) "sectionKey" JNull = Ok sk ->
               Py.ne sk ref_key = true ->
               _validate_form_structure doc
               = Raise (ValueError (Msg.layout_mismatch name))).
    { intros sk Hsk Hne. apply (layout_reached_raise doc section _ Hreach).
      unfold check_layout. cbn [Py.contains Py.getitem]. rewrite Hconf.
      cbn [bind Py.contains Py.getitem]. rewrite Hlay. cbn [bind].
      rewrite Hsk, Hrk. cbn [bind]. rewrite Hne, Hname. reflexivity. }
    split.
    + intros k Hk Hne. split; [|exact Hocc].
      apply (Hfail k); [cbn [Py.get]; now rewrite Hk|exact Hne].
    + intros Hk Hne. split; [|exact Hocc].
      apply (Hfail JNull); [cbn [Py.get]; now rewrite Hk|exact Hne].
  - unfold check_layout. cbn [Py.contains Py.getitem].
    intros [Hnone|(conf & Hconf & Hlay)].
    + rewrite Hnone. reflexivity.
    + rewrite Hconf. cbn [bind Py.contains]. rewrite Hlay. reflexivity.
Qed.

Lemma layout_check_gated_on_layout_witness :
  layout_reached (mk_document [JObj section_layout_z]) section_layout_z
  /\ _validate_form_structure (mk_document [JObj section_layout_z])
     = Raise (ValueError
                "Section 'Personal Information' has mismatched sectionKey in layout configuration").
Proof.
  assert (Hreach : layout_reached (mk_document [JObj section_layout_z])
                                  section_layout_z).
  { exists [], [], Py.set_empty, [JStr "a"]. repeat split. }
  split; [exact Hreach|].
  exact (proj1 (proj1 (proj1 (layout_check_gated_on_layout
                                 (mk_document [JObj section_layout_z])
                                 section_layout_z (JStr "a")
                                 (JStr "Personal Information")
                                 Hreach eq_refl eq_refl)
                              [("layout", JObj [("sectionKey", JStr "z")])]
                              [("sectionKey", JStr "z")] eq_refl eq_refl)
                       (JStr "z") eq_refl eq_refl)).
Defined.

(** ** The object store *)

Module StoreFacts.
Local Open Scope list_scope.

Lemma traverse_impl {A B : Type} (f g : A -> option B) l ys :
  (forall x y, In x l -> f x = Some y -> g x = Some y) ->
  Store.traverse f l = Some ys -> Store.traverse g l = Some ys.
Proof.
  revert ys. induction l as [|x l IH]; intros ys Himp; [trivial|].
  cbn [Store.traverse]. destruct (f x) as [y|] eqn:Hf; [|discriminate].
  destruct (Store.traverse f l) as [ys'|] eqn:Hl; [|discriminate].
  intros [= <-]. rewrite (Himp x y (or_introl eq_refl) Hf).
  rewrite (IH ys' (fun x0 y0 Hin => Himp x0 y0 (or_intror Hin)) eq_refl).
  reflexivity.
Qed.

Lemma traverse_Forall2 {A B : Type} (f : A -> option B) l ys :
  Store.traverse f l = Some ys -> Forall2 (fun x y => f x = Some y) l ys.
Proof.
  revert ys. induction l as [|x l IH]; intros ys; cbn [Store.traverse].
  - intros [= <-]. constructor.
  - destruct (f x) as [y|] eqn:Hf; [|discriminate].
    destruct (Store.traverse f l) as [ys'|]; [|discriminate].
    intros [= <-]. constructor; auto.
Qed.

Lemma nth_error_ext (h t : Store.heap) l o :
  nth_error h l = Some o -> nth_error (h ++ t) l = Some o.
Proof.
  intros H. rewrite nth_error_app1; [exact H|].
  apply nth_error_Some. rewrite H. discriminate.
Qed.

(** More fuel and more objects do not change what a value stands for. *)
Lemma reify_mono fuel h v j :
  Store.reify fuel h v = Some j ->
  forall fuel' t, (fuel <= fuel')%nat -> Store.reify fuel' (h ++ t) v = Some j.
Proof.
  revert v j. induction fuel as [|fuel IH]; intros v j H fuel' t Hle.
  - destruct v; try discriminate H; destruct fuel'; exact H.
  - destruct v; try (destruct fuel'; exact H).
    destruct fuel' as [|fuel']; [lia|]. cbn [Store.reify] in H |- *.
    destruct (nth_error h l) as [o|] eqn:Hn; [|discriminate H].
    rewrite (nth_error_ext h t l o Hn).
    destruct o as [elems|items|]; [| |discriminate H].
    + destruct (Store.traverse (Store.reify fuel h) elems) as [js|] eqn:Ht; [|discriminate H].
      rewrite (traverse_impl (Store.reify fuel h) (Store.reify fuel' (h ++ t)) elems js);
        [exact H| |exact Ht].
      intros x y _ Hx. apply IH; [exact Hx|lia].
    + match type of H with
      | option_map _ (Store.traverse ?f _) = _ =>
          destruct (Store.traverse f items) as [js|] eqn:Ht; [|discriminate H]
      end.
      erewrite traverse_impl; [exact H| |exact Ht].
      intros [k x] y _ Hx. cbn [fst snd] in *.
      destruct (Store.reify fuel h x) as [jx|] eqn:Hr; [|discriminate Hx].
      rewrite (IH x jx Hr fuel' t); [exact Hx|lia].
Qed.

Lemma stands_for_value_of h v j : Store.value_of h v = Some j -> Store.stands_for h v j.
Proof. intros H. exists (List.length h). split; [lia|exact H]. Qed.

Lemma value_of_ext h v j t :
  Store.stands_for h v j -> Store.value_of (h ++ t) v = Some j.
Proof.
  intros (fuel & Hle & H). unfold Store.value_of.
  apply reify_mono with (fuel := fuel); [exact H|].
  rewrite length_app. lia.
Qed.

Lemma stands_for_ext h v j t : Store.stands_for h v j -> Store.stands_for (h ++ t) v j.
Proof. intros H. apply stands_for_value_of, value_of_ext, H. Qed.

Lemma value_ext h v j t : Store.stands_for h v j -> Store.value (h ++ t) v = j.
Proof. intros H. unfold Store.value. now rewrite (value_of_ext h v j t H). Qed.

Lemma stands_for_str h s : Store.stands_for h (Store.VStr s) (JStr s).
Proof. exists 0%nat. split; [lia|reflexivity]. Qed.

Lemma stands_for_none h : Store.stands_for h Store.VNone JNull.
Proof. exists 0%nat. split; [lia|reflexivity]. Qed.

(** What stands for a dict is a reference to a dict object whose items stand
    for the dict's, and likewise for a list; what stands for a scalar is that
    scalar. *)
Lemma stands_for_inv h v j :
  Store.stands_for h v j ->
  match j with
  | JNull => v = Store.VNone
  | JBool b => v = Store.VBool b
  | JInt n => v = Store.VInt n
  | JStr s => v = Store.VStr s
  | JArr js =>
      exists l elems,
        v = Store.VRef l /\ nth_error h l = Some (Store.OList elems)
        /\ Forall2 (Store.stands_for h) elems js
  | JObj jitems =>
      exists l items,
        v = Store.VRef l /\ nth_error h l = Some (Store.ODict items)
        /\ Forall2 (fun a b => fst a = fst b /\ Store.stands_for h (snd a) (snd b))
                   items jitems
  end.
Proof.
  intros (fuel & Hle & H).
  destruct v as [| | | |l].
  - destruct fuel; injection H as <-; reflexivity.
  - destruct fuel; injection H as <-; reflexivity.
  - destruct fuel; injection H as <-; reflexivity.
  - destruct fuel; injection H as <-; reflexivity.
  - destruct fuel as [|fuel]; [discriminate H|]. cbn [Store.reify] in H.
    destruct (nth_error h l) as [o|] eqn:Hn; [|discriminate H].
    destruct o as [elems|items|]; [| |discriminate H].
    + destruct (Store.traverse (Store.reify fuel h) elems) as [js|] eqn:Ht; [|discriminate H].
      injection H as <-. exists l, elems.
      split; [reflexivity|]. split; [exact Hn|].
      apply traverse_Forall2 in Ht.
      eapply Forall2_impl; [|exact Ht].
      intros x y Hx. exists fuel. split; [lia|exact Hx].
    + match type of H with
      | option_map _ (Store.traverse ?f _) = _ =>
          destruct (Store.traverse f items) as [js|] eqn:Ht; [|discriminate H]
      end.
      injection H as <-. exists l, items.
      split; [reflexivity|]. split; [exact Hn|].
      apply traverse_Forall2 in Ht.
      eapply Forall2_impl; [|exact Ht].
      intros [k x] [k' y] Hx. cbn [fst snd] in *.
      destruct (Store.reify fuel h x) as [jx|] eqn:Hr; [|discriminate Hx].
      injection Hx as <- <-. split; [reflexivity|].
      exists fuel. split; [lia|exact Hr].
Qed.

Lemma lookup_stands_for h key items jitems :
  Forall2 (fun a b => fst a = fst b /\ Store.stands_for h (snd a) (snd b))
          items jitems ->
  match Py.assoc key jitems with
  | Some j => exists v, Store.lookup key items = Some v /\ Store.stands_for h v j
  | None => Store.lookup key items = None
  end.
Proof.
  induction 1 as [|[k v] [k' j] items jitems [Hk Hv] _ IH]; [reflexivity|].
  cbn [fst snd] in *. subst k'. cbn [Py.assoc Store.lookup].
  destruct (String.eqb key k); [eauto|exact IH].
Qed.


(** *** The reading operations *)

Lemma sim_ret {A B : Type} (R : A -> B -> Prop) h a b :
  R a b -> Store.simulates R h (Store.ret a) (Ok b).
Proof. intros H t. exists (Ok a). split; [reflexivity|exact H]. Qed.

Lemma sim_fail {A B : Type} (R : A -> B -> Prop) h msg m :
  (forall t, msg (h ++ t) = m) ->
  Store.simulates R h (Store.fail msg) (Raise (ValueError m)).
Proof.
  intros H t. exists (Raise (ValueError m)). unfold Store.fail.
  rewrite H. split; reflexivity.
Qed.

Lemma sim_bind {A B C D : Type} (R : A -> B -> Prop) (S : C -> D -> Prop)
      h m p k q :
  Store.simulates R h m p ->
  (forall a b, R a b -> Store.simulates S h (k a) (q b)) ->
  Store.simulates S h (Store.bind m k) (bind p q).
Proof.
  intros Hm Hk t. destruct (Hm t) as (r & Hr & Hag).
  unfold Store.bind. rewrite Hr.
  destruct r as [a|e], p as [b|e']; cbn [Store.agree bind] in *;
    try contradiction.
  - exact (Hk a b Hag t).
  - exists (Raise e). split; [reflexivity|exact Hag].
Qed.

(** A read whose result on values is known in advance. *)
Lemma sim_read_then {A C D : Type} (S : C -> D -> Prop) h
      (f : Store.heap -> result A) (a : A) k p :
  (forall t, f (h ++ t) = Ok a) ->
  Store.simulates S h (k a) p ->
  Store.simulates S h (Store.bind (Store.read f) k) p.
Proof.
  intros Hf Hk t. unfold Store.bind, Store.read. rewrite Hf. exact (Hk t).
Qed.

Lemma eq_stands_for h t a b ja jb :
  Store.stands_for h a ja -> Store.stands_for h b jb ->
  Store.eq (h ++ t) a b = Py.eq ja jb.
Proof.
  intros Ha Hb. unfold Store.eq.
  now rewrite (value_ext h a ja t Ha), (value_ext h b jb t Hb).
Qed.

Lemma existsb_stands_for h t a ja elems js :
  Store.stands_for h a ja ->
  Forall2 (Store.stands_for h) elems js ->
  existsb (Store.eq (h ++ t) a) elems = existsb (Py.eq ja) js.
Proof.
  intros Ha. induction 1 as [|x y elems js Hx _ IH]; [reflexivity|].
  cbn [existsb]. now rewrite IH, (eq_stands_for h t a x ja y Ha Hx).
Qed.

Lemma in_valid_field_types_stands_for h t v j :
  Store.stands_for h v j ->
  Store.in_valid_field_types (h ++ t) v = in_valid_field_types j.
Proof.
  intros Hv. unfold Store.in_valid_field_types, in_valid_field_types.
  induction valid_field_types as [|s l IH]; [reflexivity|].
  cbn [existsb]. rewrite IH.
  now rewrite (eq_stands_for h t v (Store.VStr s) j (JStr s) Hv
                 (stands_for_str h s)).
Qed.

Lemma hashable_stands_for h v j :
  Store.stands_for h v j -> Store.hashable v = Py.hashable j.
Proof.
  intros H. apply stands_for_inv in H.
  destruct j as [|b|n|s|js|jitems]; try (subst v; reflexivity).
  - destruct H as (l & elems & -> & _). reflexivity.
  - destruct H as (l & items & -> & _). reflexivity.
Qed.

Lemma is_dict_stands_for h t v j :
  Store.stands_for h v j -> Store.is_dict (h ++ t) v = Py.is_dict j.
Proof.
  intros H. apply stands_for_inv in H.
  destruct j as [|b|n|s|js|jitems]; try (subst v; reflexivity).
  - destruct H as (l & elems & -> & Hn & _). cbn.
    now rewrite (nth_error_ext h t l _ Hn).
  - destruct H as (l & items & -> & Hn & _). cbn.
    now rewrite (nth_error_ext h t l _ Hn).
Qed.

Lemma sim_contains h key v j :
  Store.stands_for h v j ->
  Store.simulates Logic.eq h (Store.read (Store.contains key v))
                  (Py.contains key j).
Proof.
  intros H t. unfold Store.read. eexists. split; [reflexivity|].
  assert (Hinv := stands_for_inv h v j H).
  destruct j as [|b|n|s|js|jitems]; try (subst v; reflexivity).
  - destruct Hinv as (l & elems & -> & Hn & Hall).
    cbn [Store.contains Py.contains]. rewrite (nth_error_ext h t l _ Hn).
    cbn [Store.agree].
    apply (existsb_stands_for h t (Store.VStr key) (JStr key) elems _
             (stands_for_str h key) Hall).
  - destruct Hinv as (l & items & -> & Hn & Hall).
    cbn [Store.contains Py.contains]. rewrite (nth_error_ext h t l _ Hn).
    cbn [Store.agree].
    assert (Hl := lookup_stands_for h key items jitems Hall).
    destruct (Py.assoc key jitems); [destruct Hl as (x & -> & _)|rewrite Hl];
      reflexivity.
Qed.

Lemma sim_getitem h key v j :
  Store.stands_for h v j ->
  Store.simulates (Store.stands_for h) h (Store.read (Store.getitem v key))
                  (Py.getitem j key).
Proof.
  intros H t. unfold Store.read. eexists. split; [reflexivity|].
  assert (Hinv := stands_for_inv h v j H).
  destruct j as [|b|n|s|js|jitems]; try (subst v; reflexivity).
  - destruct Hinv as (l & elems & -> & Hn & Hall).
    cbn [Store.getitem Py.getitem]. rewrite (nth_error_ext h t l _ Hn).
    reflexivity.
  - destruct Hinv as (l & items & -> & Hn & Hall).
    cbn [Store.getitem Py.getitem]. rewrite (nth_error_ext h t l _ Hn).
    assert (Hl := lookup_stands_for h key items jitems Hall).
    destruct (Py.assoc key jitems); [destruct Hl as (x & -> & Hx)|rewrite Hl];
      [exact Hx|reflexivity].
Qed.

Lemma sim_get h key v j d dj :
  Store.stands_for h v j -> Store.stands_for h d dj ->
  Store.simulates (Store.stands_for h) h (Store.read (Store.get v key d))
                  (Py.get j key dj).
Proof.
  intros H Hd t. unfold Store.read. eexists. split; [reflexivity|].
  assert (Hinv := stands_for_inv h v j H).
  destruct j as [|b|n|s|js|jitems]; try (subst v; reflexivity).
  - destruct Hinv as (l & elems & -> & Hn & Hall).
    cbn [Store.get Py.get]. rewrite (nth_error_ext h t l _ Hn). reflexivity.
  - destruct Hinv as (l & items & -> & Hn & Hall).
    cbn [Store.get Py.get]. rewrite (nth_error_ext h t l _ Hn).
    assert (Hl := lookup_stands_for h key items jitems Hall).
    destruct (Py.assoc key jitems); [destruct Hl as (x & -> & Hx)|rewrite Hl];
      [exact Hx|exact Hd].
Qed.

Lemma chars_stand_for h s :
  Forall2 (Store.stands_for h) (Store.chars s) (Py.chars s).
Proof.
  induction s as [|c s IH]; constructor; [apply stands_for_str|exact IH].
Qed.

Lemma keys_stand_for h items jitems :
  Forall2 (fun a b => fst a = fst b /\ Store.stands_for h (snd a) (snd b))
          items jitems ->
  Forall2 (Store.stands_for h) (map (fun kv => Store.VStr (fst kv)) items)
          (map (fun kv => JStr (fst kv)) jitems).
Proof.
  induction 1 as [|a b items jitems [Hk _] _ IH]; constructor; [|exact IH].
  rewrite Hk. apply stands_for_str.
Qed.

Lemma sim_iter h v j :
  Store.stands_for h v j ->
  Store.simulates (Forall2 (Store.stands_for h)) h (Store.read (Store.iter v))
                  (Py.iter j).
Proof.
  intros H t. unfold Store.read. eexists. split; [reflexivity|].
  assert (Hinv := stands_for_inv h v j H).
  destruct j as [|b|n|s|js|jitems]; try (subst v; reflexivity).
  - subst v. apply chars_stand_for.
  - destruct Hinv as (l & elems & -> & Hn & Hall).
    cbn [Store.iter Py.iter]. rewrite (nth_error_ext h t l _ Hn). exact Hall.
  - destruct Hinv as (l & items & -> & Hn & Hall).
    cbn [Store.iter Py.iter]. rewrite (nth_error_ext h t l _ Hn).
    apply keys_stand_for, Hall.
Qed.

(** *** The checks that only read *)

Lemma sim_validate_field h g gj f fj :
  Store.stands_for h g gj -> Store.stands_for h f fj ->
  Store.simulates (fun _ _ => True) h (Store.validate_field g f)
                  (validate_field gj fj).
Proof.
  intros Hg Hf. unfold Store.validate_field, validate_field.
  apply sim_bind with (R := Store.stands_for h); [apply sim_getitem, Hf|].
  intros ft ftj Hft.
  apply sim_read_then with (a := in_valid_field_types ftj).
  { intros t. now rewrite (in_valid_field_types_stands_for h t ft ftj Hft). }
  destruct (in_valid_field_types ftj); cbn [negb].
  2:{ apply sim_fail. intros t. now rewrite (value_ext h ft ftj t Hft). }
  apply sim_bind with (R := Logic.eq); [apply sim_contains, Hf|].
  intros has_ref ? <-. destruct has_ref; cbn [negb].
  2:{ apply sim_bind with (R := Store.stands_for h);
        [apply sim_get; [exact Hf|apply stands_for_str]|].
      intros n nj Hn. apply sim_fail. intros t.
      now rewrite (value_ext h n nj t Hn). }
  apply sim_bind with (R := Store.stands_for h); [apply sim_getitem, Hf|].
  intros fk fkj Hfk.
  apply sim_bind with (R := Store.stands_for h); [apply sim_getitem, Hg|].
  intros sk skj Hsk.
  apply sim_read_then with (a := Py.ne fkj skj).
  { intros t. unfold Store.ne, Py.ne.
    now rewrite (eq_stands_for h t fk sk fkj skj Hfk Hsk). }
  destruct (Py.ne fkj skj); [|apply sim_ret; exact I].
  apply sim_bind with (R := Store.stands_for h);
    [apply sim_get; [exact Hf|apply stands_for_str]|].
  intros n nj Hn. apply sim_fail. intros t.
  now rewrite (value_ext h n nj t Hn), (value_ext h fk fkj t Hfk),
    (value_ext h sk skj t Hsk).
Qed.

Lemma sim_validate_fields h g gj fields jfields :
  Store.stands_for h g gj ->
  Forall2 (Store.stands_for h) fields jfields ->
  Store.simulates (fun _ _ => True) h (Store.validate_fields g fields)
                  (validate_fields gj jfields).
Proof.
  intros Hg. induction 1 as [|f fj fields jfields Hf _ IH].
  - apply sim_ret. exact I.
  - cbn [Store.validate_fields validate_fields].
    apply sim_bind with (R := fun _ _ => True);
      [apply sim_validate_field; assumption|].
    intros _ _ _. exact IH.
Qed.

Lemma sim_check_layout h g gj :
  Store.stands_for h g gj ->
  Store.simulates (fun _ _ => True) h (Store.check_layout g) (check_layout gj).
Proof.
  intros Hg. unfold Store.check_layout, check_layout.
  apply sim_bind with (R := Logic.eq); [apply sim_contains, Hg|].
  intros has_conf ? <-.
  apply sim_bind with (R := Logic.eq).
  { destruct has_conf; [|apply sim_ret; reflexivity].
    apply sim_bind with (R := Store.stands_for h); [apply sim_getitem, Hg|].
    intros conf confj Hconf. apply sim_contains, Hconf. }
  intros has_layout ? <-. destruct has_layout; [|apply sim_ret; exact I].
  apply sim_bind with (R := Store.stands_for h); [apply sim_getitem, Hg|].
  intros conf confj Hconf.
  apply sim_bind with (R := Store.stands_for h); [apply sim_getitem, Hconf|].
  intros lay layj Hlay.
  apply sim_bind with (R := Store.stands_for h);
    [apply sim_get; [exact Hlay|apply stands_for_none]|].
  intros sk skj Hsk.
  apply sim_bind with (R := Store.stands_for h); [apply sim_getitem, Hg|].
  intros rk rkj Hrk.
  apply sim_read_then with (a := Py.ne skj rkj).
  { intros t. unfold Store.ne, Py.ne.
    now rewrite (eq_stands_for h t sk rk skj rkj Hsk Hrk). }
  destruct (Py.ne skj rkj); [|apply sim_ret; exact I].
  apply sim_bind with (R := Store.stands_for h);
    [apply sim_get; [exact Hg|apply stands_for_str]|].
  intros n nj Hn. apply sim_fail. intros t.
  now rewrite (value_ext h n nj t Hn).
Qed.

Lemma sim_check_required_keys h v j keys :
  Store.stands_for h v j ->
  Store.simulates (fun _ _ => True) h (Store.check_required_keys keys v)
                  (check_required_keys keys j).
Proof.
  intros Hv. induction keys as [|key rest IH]; [apply sim_ret; exact I|].
  cbn [Store.check_required_keys check_required_keys].
  apply sim_bind with (R := Logic.eq); [apply sim_contains, Hv|].
  intros present ? <-. destruct present; cbn [negb]; [exact IH|].
  apply sim_fail. reflexivity.
Qed.

(** *** The working set *)

(** One step of a computation on the heap, read off its simulation. *)
Lemma sim_run {A B : Type} (R : A -> B -> Prop) h (m : Store.M A) p t :
  Store.simulates R h m p ->
  match p with
  | Ok b =>
      exists a, R a b
                /\ forall (C : Type) (k : A -> Store.M C),
                     Store.bind m k (h ++ t) = k a (h ++ t)
  | Raise e =>
      forall (C : Type) (k : A -> Store.M C),
        Store.bind m k (h ++ t) = (Raise e, h ++ t)
  end.
Proof.
  intros Hm. destruct (Hm t) as (r & Hr & Hag).
  destruct r as [a|e], p as [b|e']; cbn [Store.agree] in Hag; try contradiction.
  - exists a. split; [exact Hag|]. intros C k. unfold Store.bind. now rewrite Hr.
  - subst e'. intros C k. unfold Store.bind. now rewrite Hr.
Qed.

Lemma nth_error_last (h : Store.heap) o :
  nth_error (h ++ [o]) (List.length h) = Some o.
Proof. rewrite nth_error_app2, Nat.sub_diag; [reflexivity|lia]. Qed.

Lemma update_last (h : Store.heap) o o' :
  Store.update (List.length h) o' (h ++ [o]) = h ++ [o'].
Proof. induction h as [|x h IH]; cbn; [reflexivity|now rewrite IH]. Qed.

Lemma sim_set_add h s seen k kj :
  Forall2 (Store.stands_for h) s seen ->
  Store.stands_for h k kj ->
  match Py.set_add seen kj with
  | Ok seen' =>
      exists s',
        Store.set_add (Store.VRef (List.length h)) k (h ++ [Store.OSet s])
        = (Ok tt, h ++ [Store.OSet s'])
        /\ Forall2 (Store.stands_for h) s' seen'
  | Raise e =>
      Store.set_add (Store.VRef (List.length h)) k (h ++ [Store.OSet s])
      = (Raise e, h ++ [Store.OSet s])
  end.
Proof.
  intros Hs Hk. unfold Py.set_add, Store.set_add.
  rewrite nth_error_last, (hashable_stands_for h k kj Hk).
  destruct (Py.hashable kj); [|reflexivity].
  rewrite (existsb_stands_for h [Store.OSet s] k kj s seen Hk Hs).
  destruct (existsb (Py.eq kj) seen).
  - exists s. split; [reflexivity|exact Hs].
  - exists (k :: s). rewrite update_last. split; [reflexivity|].
    constructor; assumption.
Qed.

Lemma sim_check_section h g gj s seen :
  Store.stands_for h g gj ->
  Forall2 (Store.stands_for h) s seen ->
  exists r s',
    Store.check_section g (Store.VRef (List.length h)) (h ++ [Store.OSet s])
    = (r, h ++ [Store.OSet s'])
    /\ Store.agree (fun _ seen' => Forall2 (Store.stands_for h) s' seen')
                   r (check_section gj seen).
Proof.
  intros Hg Hs. unfold Store.check_section, check_section.
  pose proof (sim_run Logic.eq h _ _ [Store.OSet s]
                (sim_contains h "refKey" g gj Hg)) as H1.
  destruct (Py.contains "refKey" gj) as [has_ref|e]; cbn [bind].
  2:{ rewrite H1. exists (Raise e), s. split; reflexivity. }
  destruct H1 as (? & -> & H1). rewrite H1. clear H1.
  destruct has_ref; cbn [negb].
  2:{ pose proof (sim_run _ h _ _ [Store.OSet s]
                    (sim_get h "name" g gj _ _ Hg (stands_for_str h "unnamed")))
        as H2.
      destruct (Py.get gj "name" (JStr "unnamed")) as [nj|e]; cbn [bind].
      - destruct H2 as (n & Hn & H2). rewrite H2. unfold Store.fail.
        rewrite (value_ext h n nj _ Hn).
        exists (Raise (ValueError (Msg.section_missing_ref_key nj))), s.
        split; reflexivity.
      - rewrite H2. exists (Raise e), s. split; reflexivity. }
  pose proof (sim_run _ h _ _ [Store.OSet s] (sim_getitem h "refKey" g gj Hg))
    as H2.
  destruct (Py.getitem gj "refKey") as [rkj|e]; cbn [bind].
  2:{ rewrite H2. exists (Raise e), s. split; reflexivity. }
  destruct H2 as (rk & Hrk & H2). rewrite H2. clear H2.
  unfold Store.bind at 1.
  pose proof (sim_set_add h s seen rk rkj Hs Hrk) as H3.
  destruct (Py.set_add seen rkj) as [seen'|e]; cbn [bind].
  2:{ rewrite H3. exists (Raise e), s. split; reflexivity. }
  destruct H3 as (s' & H3 & Hs'). rewrite H3. clear H3.
  pose proof (sim_run Logic.eq h _ _ [Store.OSet s']
                (sim_contains h "fields" g gj Hg)) as H4.
  destruct (Py.contains "fields" gj) as [has_fields|e]; cbn [bind].
  2:{ rewrite H4. exists (Raise e), s'. split; reflexivity. }
  destruct H4 as (? & -> & H4). rewrite H4. clear H4.
  destruct has_fields; cbn [negb].
  2:{ exists (Raise (ValueError Msg.missing_fields)), s'. split; reflexivity. }
  pose proof (sim_run _ h _ _ [Store.OSet s'] (sim_getitem h "fields" g gj Hg))
    as H5.
  destruct (Py.getitem gj "fields") as [fsj|e]; cbn [bind].
  2:{ rewrite H5. exists (Raise e), s'. split; reflexivity. }
  destruct H5 as (fs & Hfs & H5). rewrite H5. clear H5.
  pose proof (sim_run _ h _ _ [Store.OSet s'] (sim_iter h fs fsj Hfs)) as H6.
  destruct (Py.iter fsj) as [flj|e]; cbn [bind].
  2:{ rewrite H6. exists (Raise e), s'. split; reflexivity. }
  destruct H6 as (fl & Hfl & H6). rewrite H6. clear H6.
  destruct (sim_validate_fields h g gj fl flj Hg Hfl [Store.OSet s'])
    as (r & Hr & Hag).
  rewrite Hr. exists r, s'. split; [reflexivity|].
  destruct r as [[]|e], (validate_fields gj flj) as [[]|e'];
    cbn [Store.agree bind] in *; try contradiction; assumption.
Qed.

Lemma sim_validate_group h g gj s seen :
  Store.stands_for h g gj ->
  Forall2 (Store.stands_for h) s seen ->
  exists r s',
    Store.validate_group g (Store.VRef (List.length h)) (h ++ [Store.OSet s])
    = (r, h ++ [Store.OSet s'])
    /\ Store.agree (fun _ seen' => Forall2 (Store.stands_for h) s' seen')
                   r (validate_group gj seen).
Proof.
  intros Hg Hs. unfold Store.validate_group, validate_group.
  destruct (sim_check_section h g gj s seen Hg Hs) as (r & s' & Hr & Hag).
  unfold Store.bind. rewrite Hr.
  destruct r as [[]|e], (check_section gj seen) as [seen'|e'];
    cbn [Store.agree bind] in *; try contradiction.
  - destruct (sim_check_layout h g gj Hg [Store.OSet s']) as (r2 & Hr2 & Hag2).
    rewrite Hr2. exists r2, s'. split; [reflexivity|].
    destruct r2 as [[]|e], (check_layout gj) as [[]|e'];
      cbn [Store.agree bind] in *; try contradiction; assumption.
  - exists (Raise e), s'. split; [reflexivity|exact Hag].
Qed.

Lemma sim_validate_groups h groups jgroups :
  Forall2 (Store.stands_for h) groups jgroups ->
  forall s seen,
    Forall2 (Store.stands_for h) s seen ->
    exists r s',
      Store.validate_groups groups (Store.VRef (List.length h))
                            (h ++ [Store.OSet s])
      = (r, h ++ [Store.OSet s'])
      /\ Store.agree (fun _ _ => True) r (validate_groups jgroups seen).
Proof.
  induction 1 as [|g gj groups jgroups Hg _ IH]; intros s seen Hs.
  - exists (Ok tt), s. split; [reflexivity|exact I].
  - cbn [Store.validate_groups validate_groups].
    destruct (sim_validate_group h g gj s seen Hg Hs) as (r & s' & Hr & Hag).
    unfold Store.bind. rewrite Hr.
    destruct r as [[]|e], (validate_group gj seen) as [seen'|e'];
      cbn [Store.agree bind] in *; try contradiction.
    + exact (IH s' seen' Hag).
    + exists (Raise e), s'. split; [reflexivity|exact Hag].
Qed.

(** The validator on the heap does what the validator on values does with
    the document its argument stands for, and the heap it leaves is the one
    it found, with at most the set of the call added. *)
Lemma validate_on_store h v doc :
  Store.stands_for h v doc ->
  exists h',
    Store._validate_form_structure v h = (_validate_form_structure doc, h')
    /\ (h' = h \/ exists s, h' = h ++ [Store.OSet s]).
Proof.
  intros Hv. unfold Store._validate_form_structure, _validate_form_structure.
  unfold Store.bind at 1. unfold Store.read at 1.
  assert (Hd := is_dict_stands_for h [] v doc Hv). rewrite app_nil_r in Hd.
  rewrite Hd. clear Hd.
  destruct (Py.is_dict doc); cbn [negb].
  2:{ exists h. split; [reflexivity|left; reflexivity]. }
  pose proof (sim_run _ h _ _ [] (sim_check_required_keys h v doc required_keys Hv))
    as H1. rewrite app_nil_r in H1.
  destruct (check_required_keys required_keys doc) as [[]|e]; cbn [bind].
  2:{ rewrite H1. exists h. split; [reflexivity|left; reflexivity]. }
  destruct H1 as (? & _ & H1). rewrite H1. clear H1.
  pose proof (sim_run _ h _ _ [] (sim_getitem h "formVersion" v doc Hv)) as H2.
  rewrite app_nil_r in H2.
  destruct (Py.getitem doc "formVersion") as [fvj|e]; cbn [bind].
  2:{ rewrite H2. exists h. split; [reflexivity|left; reflexivity]. }
  destruct H2 as (fv & Hfv & H2). rewrite H2. clear H2.
  pose proof (sim_run Logic.eq h _ _ [] (sim_contains h "formGroups" fv fvj Hfv))
    as H3. rewrite app_nil_r in H3.
  destruct (Py.contains "formGroups" fvj) as [has_groups|e]; cbn [bind].
  2:{ rewrite H3. exists h. split; [reflexivity|left; reflexivity]. }
  destruct H3 as (? & -> & H3). rewrite H3. clear H3.
  destruct has_groups; cbn [negb].
  2:{ exists h. split; [reflexivity|left; reflexivity]. }
  unfold Store.bind at 1. unfold Store.new_set.
  pose proof (sim_run _ h _ _ [Store.OSet []]
                (sim_getitem h "formGroups" fv fvj Hfv)) as H4.
  destruct (Py.getitem fvj "formGroups") as [gsj|e]; cbn [bind].
  2:{ rewrite H4. exists (h ++ [Store.OSet []]). split; [reflexivity|eauto]. }
  destruct H4 as (gs & Hgs & H4). rewrite H4. clear H4.
  pose proof (sim_run _ h _ _ [Store.OSet []] (sim_iter h gs gsj Hgs)) as H5.
  destruct (Py.iter gsj) as [groupsj|e]; cbn [bind].
  2:{ rewrite H5. exists (h ++ [Store.OSet []]). split; [reflexivity|eauto]. }
  destruct H5 as (groups & Hgroups & H5). rewrite H5. clear H5.
  destruct (sim_validate_groups h groups groupsj Hgroups [] Py.set_empty
              (Forall2_nil _)) as (r & s' & Hr & Hag).
  rewrite Hr. exists (h ++ [Store.OSet s']). split; [|eauto].
  destruct r as [[]|e], (validate_groups groupsj Py.set_empty) as [seen'|e'];
    cbn [Store.agree bind] in *; try contradiction; [reflexivity|now subst].
Qed.

End StoreFacts.

(** C2: the validator collects the sections' refKeys and never compares
    them; a document with two sections of refKey "s1" is accepted. *)
Theorem duplicate_ref_keys_accepted :
  _validate_form_structure document_duplicate_ref_keys = Ok tt.
Proof. reflexivity. Qed.

(** Repeating a section never turns an accepted document into a rejected
    one. *)
Lemma repeated_section_accepted doc doc' pre g post :
  sections_of doc = Some (pre ++ g :: post)%list ->
  sections_of doc' = Some (pre ++ g :: g :: post)%list ->
  _validate_form_structure doc = Ok tt ->
  _validate_form_structure doc' = Ok tt.
Proof.
  intros Hdoc Hdoc'.
  rewrite (validate_sections doc _ Hdoc), (validate_sections doc' _ Hdoc').
  rewrite !validate_groups_app.
  destruct (validate_groups pre Py.set_empty) as [s1|]; cbn [bind validate_groups];
    [|discriminate].
  destruct (validate_group g s1) as [s2|] eqn:Hg; cbn [bind]; [|discriminate].
  assert (H2 := validate_group_seen g s1 s2). rewrite Hg in H2.
  destruct (validate_group g s2) as [s3|]; cbn [bind outcome] in *; [|discriminate].
  rewrite (validate_groups_seen post s3 s2). trivial.
Qed.




(** C4: a document with keys form and formVersion whose formGroups holds one
    section with refKey "s1" and one field of type "text" with refKey "s1"
    (and no configurations) validates: the validator returns. *)
Theorem well_formed_document_accepted doc section field :
  sections_of doc = Some [JObj section] ->
  Py.assoc "refKey" section = Some (JStr "s1") ->
  Py.assoc "fields" section = Some (JArr [JObj field]) ->
  Py.assoc "configurations" section = None ->
  Py.assoc "fieldType" field = Some (JStr "text") ->
  Py.assoc "refKey" field = Some (JStr "s1") ->
  _validate_form_structure doc = Ok tt.
Proof.
  intros Hdoc Hrk Hf Hc Ht Hfk.
  rewrite (validate_sections doc _ Hdoc).
  cbn [validate_groups]. unfold validate_group, check_section, check_layout.
  cbn [Py.contains Py.getitem]. rewrite Hrk, Hf, Hc.
  cbn [bind negb Py.set_add Py.hashable Py.iter validate_fields].
  unfold validate_field. cbn [Py.contains Py.getitem]. rewrite Ht, Hfk, Hrk.
  reflexivity.
Qed.

Lemma well_formed_document_accepted_witness :
  _validate_form_structure document_p1 = Ok tt.
Proof.
  exact (well_formed_document_accepted document_p1
           [("refKey", JStr "s1"); ("fields", JArr [mk_field "text" "s1"])]
           [("fieldType", JStr "text"); ("refKey", JStr "s1")]
           eq_refl eq_refl eq_refl eq_refl eq_refl eq_refl).
Defined.

(** C5: when the first failing check is a field's refKey differing from its
    section's, the validator raises a [ValueError] whose message contains
    both the field's refKey and the section's. *)
Theorem ref_key_mismatch_names_both doc section field field_type field_key section_key :
  field_reached doc section field ->
  Py.assoc "fieldType" field = Some field_type ->
  in_valid_field_types field_type = true ->
  Py.assoc "refKey" field = Some field_key ->
  Py.assoc "refKey" section = Some section_key ->
  Py.ne field_key section_key = true ->
  exists m,
    _validate_form_structure doc = Raise (ValueError m)
    /\ occurs_in (Py.str field_key) m /\ occurs_in (Py.str section_key) m.
Proof.
  intros Hreach Ht Hvalid Hfk Hsk Hne.
  pose (name := match Py.assoc "name" field with
                | Some n => n
                | None => JStr "unnamed"
                end).
  exists (Msg.ref_key_mismatch name field_key section_key). split; [|split].
  - apply (field_reached_raise doc section field _ Hreach).
    unfold validate_field. cbn [Py.getitem Py.contains Py.get].
    rewrite Ht. cbn [bind]. rewrite Hvalid, Hfk. cbn [bind negb].
    rewrite Hsk. cbn [bind]. rewrite Hne. reflexivity.
  - unfold Msg.ref_key_mismatch.
    exists ("Field '" ++ Py.str name ++ "' has refKey '"),
      ("' that doesn't match its section refKey '" ++ Py.str section_key ++ "'").
    now rewrite !str_app_assoc.
  - unfold Msg.ref_key_mismatch.
    exists ("Field '" ++ Py.str name ++ "' has refKey '" ++ Py.str field_key
            ++ "' that doesn't match its section refKey '"), "'".
    now rewrite !str_app_assoc.
Qed.

Lemma ref_key_mismatch_names_both_witness :
  exists m,
    _validate_form_structure (mk_document [mk_section "a" [mk_field "text" "b"]])
    = Raise (ValueError m)
    /\ occurs_in "b" m /\ occurs_in "a" m.
Proof.
  refine (ref_key_mismatch_names_both
            (mk_document [mk_section "a" [mk_field "text" "b"]])
            [("refKey", JStr "a"); ("fields", JArr [mk_field "text" "b"])]
            [("fieldType", JStr "text"); ("refKey", JStr "b")]
            (JStr "text") (JStr "b") (JStr "a")
            _ eq_refl eq_refl eq_refl eq_refl eq_refl).
  exists [], [], Py.set_empty, (JStr "a"), [], []. repeat split.
Defined.

(** C6: when the first failing check is a field whose fieldType is not one
    of the six allowed values, the validator raises a [ValueError] whose
    message contains that fieldType. *)
Theorem invalid_field_type_named doc section field field_type :
  field_reached doc section field ->
  Py.assoc "fieldType" field = Some field_type ->
  (forall s, In s valid_field_types -> field_type <> JStr s) ->
  _validate_form_structure doc
  = Raise (ValueError (Msg.invalid_field_type field_type))
  /\ occurs_in (Py.str field_type) (Msg.invalid_field_type field_type).
Proof.
  intros Hreach Ht Hnot. split.
  - apply (field_reached_raise doc section field _ Hreach).
    unfold validate_field. cbn [Py.getitem]. rewrite Ht. cbn [bind].
    destruct (in_valid_field_types field_type) eqn:Hv; [|reflexivity].
    apply in_valid_field_types_spec in Hv as (s & -> & Hin).
    now destruct (Hnot s Hin).
  - exists "Invalid field type: ", EmptyString.
    unfold Msg.invalid_field_type.
    induction (Py.str field_type) as [|c s IH]; [reflexivity|].
    cbn in *. injection IH as IH. now rewrite <- IH.
Qed.

Lemma invalid_field_type_named_witness :
  _validate_form_structure (mk_document [mk_section "s1" [mk_field "date" "s1"]])
  = Raise (ValueError "Invalid field type: date")
  /\ occurs_in "date" "Invalid field type: date".
Proof.
  refine (invalid_field_type_named
            (mk_document [mk_section "s1" [mk_field "date" "s1"]])
            [("refKey", JStr "s1"); ("fields", JArr [mk_field "date" "s1"])]
            [("fieldType", JStr "date"); ("refKey", JStr "s1")]
            (JStr "date") _ eq_refl _).
  - exists [], [], Py.set_empty, (JStr "s1"), [], []. repeat split.
  - intros s Hin Heq. injection Heq as <-.
    cbn in Hin. repeat (destruct Hin as [Hin|Hin]; [discriminate Hin|]).
    exact Hin.
Defined.

(** C7: a mapping that lacks one of the keys form and formVersion is rejected
    with a [ValueError] naming a key it lacks: the first missing one in the
    order form, formVersion, which is the given key when it is the only one
    missing. *)
Theorem missing_top_level_key_named items key :
  In key required_keys ->
  Py.assoc key items = None ->
  exists k,
    _validate_form_structure (JObj items) = Raise (ValueError (Msg.missing_key k))
    /\ In k required_keys
    /\ Py.assoc k items = None
    /\ occurs_in k (Msg.missing_key k)
    /\ ((forall k', In k' required_keys -> k' <> key -> Py.assoc k' items <> None) ->
        k = key).
Proof.
  intros Hin Hmiss.
  assert (Hocc : forall k, occurs_in k (Msg.missing_key k))
    by (intros k; apply occurs_in_mid).
  unfold _validate_form_structure, required_keys in *.
  cbn [Py.is_dict negb check_required_keys Py.contains].
  destruct (Py.assoc "form" items) as [form|] eqn:Hform; cbn [bind negb].
  - destruct Hin as [<-|[<-|[]]]; [congruence|].
    rewrite Hmiss. cbn [bind negb].
    exists "formVersion". repeat split; auto. right. left. reflexivity.
  - exists "form". repeat split; auto; [left; reflexivity|].
    intros Honly. destruct Hin as [<-|[<-|[]]]; [reflexivity|].
    destruct (Honly "form"); [left; reflexivity|discriminate|exact Hform].
Qed.

Lemma missing_top_level_key_named_witness :
  exists k,
    _validate_form_structure (JObj [("form", JObj [])])
    = Raise (ValueError (Msg.missing_key k))
    /\ k = "formVersion".
Proof.
  destruct (missing_top_level_key_named [("form", JObj [])] "formVersion"
              (or_intror (or_introl eq_refl)) eq_refl)
    as (k & Hfail & _ & _ & _ & Honly).
  exists k. split; [exact Hfail|]. apply Honly.
  intros k' [<-|[<-|[]]] Hne; [discriminate|now destruct Hne].
Defined.

(** C8: validation leaves the document as it is and hands it on unchanged.
    On the object store, whatever heap the call finds and whichever value
    stands for the document in it, the validator gives the result it gives on
    the document, writes to no object that was there, and allocates at most
    its own set; after the call, accepted or rejected, the argument stands
    for the same document, and so does every other value.  Once the chain has
    produced [doc], an accepted [doc] is what [generate_form_from_prompt]
    returns and the one payload [create_and_trigger_form] posts, and a
    rejected [doc] makes both raise the validator's exception with nothing
    posted. *)
Theorem validated_document_handed_on_unchanged
        chain_invoke remote base_url token prompt trace h form_definition doc :
  Store.value_of h form_definition = Some doc ->
  (exists h',
      Store._validate_form_structure form_definition h
      = (_validate_form_structure doc, h')
      /\ (h' = h \/ exists section_ref_keys,
                      h' = (h ++ [Store.OSet section_ref_keys])%list)
      /\ (forall l o, nth_error h l = Some o -> nth_error h' l = Some o)
      /\ Store.value_of h' form_definition = Some doc
      /\ (forall v j, Store.value_of h v = Some j -> Store.value_of h' v = Some j))
  /\ (chain_invoke prompt = Ok doc ->
      (_validate_form_structure doc = Ok tt ->
       fst (generate_form_from_prompt chain_invoke prompt trace) = Ok doc
       /\ (forall url tok,
              base_url = Some url -> token = Some tok ->
              fst (create_and_trigger_form chain_invoke remote base_url token
                     prompt trace)
              = remote (url ++ "/forms") ("Bearer " ++ tok) doc
              /\ posted (snd (create_and_trigger_form chain_invoke remote base_url
                                token prompt trace))
                 = (posted trace ++ [doc])%list))
      /\ (forall e,
             _validate_form_structure doc = Raise e ->
             fst (generate_form_from_prompt chain_invoke prompt trace) = Raise e
             /\ fst (create_and_trigger_form chain_invoke remote base_url token
                       prompt trace)
                = Raise e
             /\ posted (snd (create_and_trigger_form chain_invoke remote base_url
                               token prompt trace))
                = posted trace)).
Proof.
  intros Hdoc. split.
  - apply StoreFacts.stands_for_value_of in Hdoc.
    destruct (StoreFacts.validate_on_store h form_definition doc Hdoc)
      as (h' & Hrun & Hshape).
    exists h'. split; [exact Hrun|]. split; [exact Hshape|].
    assert (Hext : exists t, h' = (h ++ t)%list).
    { destruct Hshape as [->|[s ->]]; [exists []; now rewrite app_nil_r|eauto]. }
    destruct Hext as (t & ->). split; [|split].
    + intros l o. apply StoreFacts.nth_error_ext.
    + apply StoreFacts.value_of_ext, Hdoc.
    + intros v j Hv.
      apply StoreFacts.value_of_ext, StoreFacts.stands_for_value_of, Hv.
  - intros Hchain. unfold create_and_trigger_form, generate_form_from_prompt.
    rewrite Hchain. split.
    + intros ->. split; [reflexivity|].
      intros url tok -> ->. unfold trigger_api. cbn [fst snd].
      rewrite !posted_emit. cbn [app]. rewrite !app_nil_r. split; reflexivity.
    + intros e ->.
      assert (H : fst (handle (Some doc) e trace) = Raise e
                  /\ posted (snd (handle (Some doc) e trace)) = posted trace).
      { unfold handle. destruct e; cbn [fst snd]; rewrite posted_emit;
          cbn [app]; rewrite app_nil_r; split; reflexivity. }
      destruct H as [H1 H2].
      destruct (handle (Some doc) e trace) as [r trace'] eqn:Hh.
      cbn [fst snd] in *. subst r. cbn [fst snd]. auto.
Qed.

Lemma validated_document_handed_on_unchanged_witness :
  Store.value_of Store.heap_p1 (Store.VRef 7) = Some document_p1
  /\ (exists h',
        Store._validate_form_structure (Store.VRef 7) Store.heap_p1
        = (_validate_form_structure document_p1, h')
        /\ Store.value_of h' (Store.VRef 7) = Some document_p1)
  /\ posted (snd (create_and_trigger_form (fun _ => Ok document_p1)
                    (fun _ _ _ => Ok JNull)
                    (Some "https://forms.example") (Some "t0k3n")
                    "a contact form" []))
     = [document_p1].
Proof.
  pose proof (validated_document_handed_on_unchanged
                (fun _ => Ok document_p1) (fun _ _ _ => Ok JNull)
                (Some "https://forms.example") (Some "t0k3n")
                "a contact form" [] Store.heap_p1 (Store.VRef 7) document_p1
                eq_refl) as [(h' & Hrun & _ & _ & Hdoc & _) Hcallers].
  split; [reflexivity|]. split.
  - exists h'. split; assumption.
  - exact (proj2 (proj2 (proj1 (Hcallers eq_refl) eq_refl)
                        "https://forms.example" "t0k3n" eq_refl eq_refl)).
Defined.

(** C9: validation is deterministic and carries no hidden state.  Whatever
    heap a call finds, the objects earlier calls left included, its result is
    the validator's result on the document the argument stands for; so a
    second call on the heap the first one left gives the same result, and a
    document accepted once is accepted again.  The working set is local to
    the call: each call that gets to its loop allocates its own set at a new
    location, and writes to no object that was there before, the set of the
    call before included. *)
Theorem validation_has_no_hidden_state form_definition doc h r1 h1 r2 h2 :
  Store.value_of h form_definition = Some doc ->
  Store._validate_form_structure form_definition h = (r1, h1) ->
  Store._validate_form_structure form_definition h1 = (r2, h2) ->
  r1 = _validate_form_structure doc
  /\ r2 = r1
  /\ (h1 = h \/ exists s, h1 = (h ++ [Store.OSet s])%list)
  /\ (h2 = h1 \/ exists s, h2 = (h1 ++ [Store.OSet s])%list).
Proof.
  intros Hdoc Hrun1 Hrun2.
  apply StoreFacts.stands_for_value_of in Hdoc.
  destruct (StoreFacts.validate_on_store h form_definition doc Hdoc)
    as (h1' & Hr1 & Hshape1).
  rewrite Hrun1 in Hr1. injection Hr1 as -> <-.
  assert (Hdoc1 : Store.stands_for h1 form_definition doc).
  { destruct Hshape1 as [->|[s ->]];
      [exact Hdoc|apply StoreFacts.stands_for_ext, Hdoc]. }
  destruct (StoreFacts.validate_on_store h1 form_definition doc Hdoc1)
    as (h2' & Hr2 & Hshape2).
  rewrite Hrun2 in Hr2. injection Hr2 as -> <-.
  repeat split; assumption.
Qed.

Lemma validation_has_no_hidden_state_witness :
  Store.value_of Store.heap_p1 (Store.VRef 7) = Some document_p1
  /\ Store._validate_form_structure (Store.VRef 7) Store.heap_p1
     = (Ok tt, (Store.heap_p1 ++ [Store.OSet [Store.VStr "s1"]])%list)
  /\ Store._validate_form_structure (Store.VRef 7)
       (Store.heap_p1 ++ [Store.OSet [Store.VStr "s1"]])%list
     = (Ok tt, ((Store.heap_p1 ++ [Store.OSet [Store.VStr "s1"]])
                  ++ [Store.OSet [Store.VStr "s1"]])%list)
  /\ Ok tt = _validate_form_structure document_p1.
Proof.
  split; [reflexivity|]. split; [reflexivity|]. split; [reflexivity|].
  exact (proj1 (validation_has_no_hidden_state (Store.VRef 7) document_p1
                  Store.heap_p1 (Ok tt)
                  (Store.heap_p1 ++ [Store.OSet [Store.VStr "s1"]])%list
                  (Ok tt)
                  ((Store.heap_p1 ++ [Store.OSet [Store.VStr "s1"]])
                     ++ [Store.OSet [Store.VStr "s1"]])%list
                  eq_refl eq_refl eq_refl)).
Defined.

(** C10: the field type is read before anything checks that it is there.  A
    field that is reached and carries no fieldType makes the validator fail
    with Python's own [KeyError] on "fieldType", not with one of its
    [ValueError]s. *)
Theorem missing_field_type_raises_key_error doc section field :
  field_reached doc section field ->
  Py.assoc "fieldType" field = None ->
  _validate_form_structure doc = Raise (KeyError "fieldType")
  /\ forall m, _validate_form_structure doc <> Raise (ValueError m).
Proof.
  intros Hreach Hnone.
  assert (H : _validate_form_structure doc = Raise (KeyError "fieldType")).
  { apply (field_reached_raise doc section field _ Hreach).
    unfold validate_field. cbn [Py.getitem]. rewrite Hnone. reflexivity. }
  split; [exact H|]. intros m. rewrite H. discriminate.
Qed.

Lemma missing_field_type_raises_key_error_witness :
  _validate_form_structure
    (mk_document [mk_section "s1" [JObj field_without_type]])
  = Raise (KeyError "fieldType").
Proof.
  refine (proj1 (missing_field_type_raises_key_error
                   (mk_document [mk_section "s1" [JObj field_without_type]])
                   [("refKey", JStr "s1"); ("fields", JArr [JObj field_without_type])]
                   field_without_type _ eq_refl)).
  exists [], [], Py.set_empty, (JStr "s1"), [], []. repeat split.
Defined.

(** ** Further properties of the validator *)

Lemma section_reached_raise doc section e :
  section_reached doc section ->
  (forall seen, validate_group section seen = Raise e) ->
  _validate_form_structure doc = Raise e.
Proof.
  intros (pre & post & seen & Hdoc & Hpre) He.
  exact (section_raise doc pre section post seen e Hdoc Hpre (He seen)).
Qed.

(** A message of the validator other than that of check 1 is not the text of
    check 1. *)
Lemma message_not_an_object v :
  message v = Msg.not_an_object -> v = NotAnObject.
Proof. destruct v; cbn; try discriminate; reflexivity. Qed.

Lemma field_violations_not_object sk f :
  ~ In NotAnObject (Spec.field_violations sk f).
Proof.
  unfold Spec.field_violations. intros H. apply in_app_or in H as [H|H].
  - destruct (Spec.attr "fieldType" f) as [t|].
    + destruct (in_valid_field_types t); [exact H|].
      destruct H as [H|[]]. discriminate H.
    + destruct H as [H|[]]. discriminate H.
  - destruct (Spec.attr "refKey" f) as [fk|].
    + destruct sk as [sk|]; [|exact H].
      destruct (Py.eq fk sk); [exact H|]. destruct H as [H|[]]. discriminate H.
    + destruct H as [H|[]]. discriminate H.
Qed.

Lemma section_violations_not_object g :
  ~ In NotAnObject (Spec.section_violations g).
Proof.
  unfold Spec.section_violations. intros H.
  apply in_app_or in H as [H|H]; [|apply in_app_or in H as [H|H]].
  - destruct (Spec.attr "refKey" g); [exact H|].
    destruct H as [H|[]]. discriminate H.
  - destruct (Spec.attr "fields" g) as [fs|].
    + apply in_flat_map in H as (f & _ & H).
      exact (field_violations_not_object _ _ H).
    + destruct H as [H|[]]. discriminate H.
  - unfold Spec.layout_violations in H.
    destruct (Spec.attr "refKey" g) as [rk|]; [|exact H].
    destruct (Spec.layout_of g) as [lay|]; [|exact H].
    destruct (Spec.attr "sectionKey" lay) as [k|]; [|exact H].
    destruct (Py.eq k rk); [exact H|]. destruct H as [H|[]]. discriminate H.
Qed.

Lemma violations_of_dict_not_object items :
  ~ In NotAnObject (Spec.violations (JObj items)).
Proof.
  unfold Spec.violations, Spec.missing. intros H.
  apply in_app_or in H as [H|H]; [|apply in_app_or in H as [H|H]].
  - destruct (Spec.attr "form" (JObj items)); [exact H|].
    destruct H as [H|[]]. discriminate H.
  - destruct (Spec.attr "formVersion" (JObj items)); [exact H|].
    destruct H as [H|[]]. discriminate H.
  - destruct (Spec.attr "formVersion" (JObj items)) as [fv|]; [|exact H].
    destruct (Spec.attr "formGroups" fv) as [gs|].
    + apply in_flat_map in H as (g & _ & H).
      exact (section_violations_not_object _ H).
    + destruct H as [H|[]]. discriminate H.
Qed.

(** X1: the validator answers "Response must be a JSON object" exactly when
    the document is not a dict; no other check produces that text. *)
Theorem not_an_object_iff doc :
  _validate_form_structure doc = Raise (ValueError Msg.not_an_object)
  <-> Py.is_dict doc = false.
Proof.
  split.
  - intros H. destruct doc as [| | | | |items]; try reflexivity.
    assert (Hr := validate_refines (JObj items)). rewrite H in Hr.
    cbn [refines raw] in Hr.
    destruct Hr as [Hr|[(name & Hr)|Hr]]; [discriminate Hr|discriminate Hr|].
    destruct (Spec.violations (JObj items)) as [|v later] eqn:Hv;
      [discriminate Hr|].
    injection Hr as Hm. symmetry in Hm. apply message_not_an_object in Hm.
    subst v. destruct (violations_of_dict_not_object items).
    rewrite Hv. left. reflexivity.
  - destruct doc; try discriminate; reflexivity.
Qed.

(** X2: with form and formVersion present, a formVersion that is a dict
    without formGroups is rejected with the formGroups message, and a
    formVersion that is null, a boolean or a number makes the membership test
    itself fail with a [TypeError]. *)
Theorem form_version_without_form_groups items form form_version :
  Py.assoc "form" items = Some form ->
  Py.assoc "formVersion" items = Some form_version ->
  (forall fv, form_version = JObj fv -> Py.assoc "formGroups" fv = None ->
              _validate_form_structure (JObj items)
              = Raise (ValueError Msg.missing_form_groups))
  /\ (form_version = JNull
      \/ (exists b, form_version = JBool b)
      \/ (exists n, form_version = JInt n) ->
      _validate_form_structure (JObj items) = Raise TypeError).
Proof.
  intros Hform Hfv.
  unfold _validate_form_structure, required_keys.
  cbn [Py.is_dict negb check_required_keys Py.contains Py.getitem].
  rewrite Hform, Hfv. cbn [bind negb]. split.
  - intros fv -> Hnone. cbn [Py.contains]. rewrite Hnone. reflexivity.
  - intros [->|[[b ->]|[n ->]]]; reflexivity.
Qed.

Lemma form_version_without_form_groups_witness :
  _validate_form_structure
    (JObj [("form", JObj []); ("formVersion", JObj [("version", JInt 1)])])
  = Raise (ValueError "formVersion must contain 'formGroups' array")
  /\ _validate_form_structure (JObj [("form", JObj []); ("formVersion", JNull)])
     = Raise TypeError.
Proof.
  split.
  - exact (proj1 (form_version_without_form_groups
                    [("form", JObj []); ("formVersion", JObj [("version", JInt 1)])]
                    (JObj []) (JObj [("version", JInt 1)]) eq_refl eq_refl)
                 [("version", JInt 1)] eq_refl eq_refl).
  - exact (proj2 (form_version_without_form_groups
                    [("form", JObj []); ("formVersion", JNull)]
                    (JObj []) JNull eq_refl eq_refl) (or_introl eq_refl)).
Defined.

(** X3: a section the validator gets to that is a dict without refKey is
    rejected with a [ValueError] carrying the section's name, or "unnamed"
    when it has none. *)
Theorem section_without_ref_key_named doc items :
  section_reached doc (JObj items) ->
  Py.assoc "refKey" items = None ->
  exists name,
    Py.get (JObj items) "name" (JStr "unnamed") = Ok name
    /\ _validate_form_structure doc
       = Raise (ValueError (Msg.section_missing_ref_key name))
    /\ occurs_in (Py.str name) (Msg.section_missing_ref_key name).
Proof.
  intros Hreach Hnone.
  exists (match Py.assoc "name" items with Some n => n | None => JStr "unnamed" end).
  split; [reflexivity|]. split; [|apply occurs_in_mid].
  apply (section_reached_raise doc (JObj items) _ Hreach). intros seen.
  unfold validate_group, check_section. cbn [Py.contains Py.get].
  rewrite Hnone. reflexivity.
Qed.

Lemma section_without_ref_key_named_witness :
  exists name,
    Py.get (JObj [("fields", JArr [])]) "name" (JStr "unnamed") = Ok name
    /\ _validate_form_structure (mk_document [JObj [("fields", JArr [])]])
       = Raise (ValueError (Msg.section_missing_ref_key name))
    /\ occurs_in (Py.str name) (Msg.section_missing_ref_key name).
Proof.
  refine (section_without_ref_key_named
            (mk_document [JObj [("fields", JArr [])]]) [("fields", JArr [])]
            _ eq_refl).
  exists [], [], Py.set_empty. split; reflexivity.
Defined.

(** X4: a section the validator gets to whose refKey is present and hashable
    but which has no fields key is rejected with the fields message. *)
Theorem section_without_fields_rejected doc items ref_key :
  section_reached doc (JObj items) ->
  Py.assoc "refKey" items = Some ref_key ->
  Py.hashable ref_key = true ->
  Py.assoc "fields" items = None ->
  _validate_form_structure doc = Raise (ValueError Msg.missing_fields).
Proof.
  intros Hreach Hrk Hh Hnone.
  apply (section_reached_raise doc (JObj items) _ Hreach). intros seen.
  unfold validate_group, check_section. cbn [Py.contains Py.getitem].
  rewrite Hrk. cbn [bind negb]. unfold Py.set_add. rewrite Hh, Hnone.
  reflexivity.
Qed.

Lemma section_without_fields_rejected_witness :
  _validate_form_structure (mk_document [JObj [("refKey", JStr "s1")]])
  = Raise (ValueError "Each formGroup must contain 'fields' array").
Proof.
  refine (section_without_fields_rejected
            (mk_document [JObj [("refKey", JStr "s1")]]) [("refKey", JStr "s1")]
            (JStr "s1") _ eq_refl eq_refl eq_refl).
  exists [], [], Py.set_empty. split; reflexivity.
Defined.

(** X5: a section's refKey goes into a set, so a refKey that is a list or a
    dict makes validation fail with Python's [TypeError] instead of one of the
    validator's messages. *)
Theorem unhashable_ref_key_type_error doc items ref_key :
  section_reached doc (JObj items) ->
  Py.assoc "refKey" items = Some ref_key ->
  Py.hashable ref_key = false ->
  _validate_form_structure doc = Raise TypeError.
Proof.
  intros Hreach Hrk Hh.
  apply (section_reached_raise doc (JObj items) _ Hreach). intros seen.
  unfold validate_group, check_section. cbn [Py.contains Py.getitem].
  rewrite Hrk. cbn [bind negb]. unfold Py.set_add. rewrite Hh. reflexivity.
Qed.

Lemma unhashable_ref_key_type_error_witness :
  _validate_form_structure
    (mk_document [JObj [("refKey", JArr [JStr "s1"]); ("fields", JArr [])]])
  = Raise TypeError.
Proof.
  refine (unhashable_ref_key_type_error
            (mk_document [JObj [("refKey", JArr [JStr "s1"]); ("fields", JArr [])]])
            [("refKey", JArr [JStr "s1"]); ("fields", JArr [])]
            (JArr [JStr "s1"]) _ eq_refl eq_refl).
  exists [], [], Py.set_empty. split; reflexivity.
Defined.

(** X6: a field the validator gets to whose fieldType is allowed and which
    has no refKey is rejected with a [ValueError] carrying the field's name,
    or "unnamed" when it has none. *)
Theorem field_without_ref_key_named doc section field field_type :
  field_reached doc section field ->
  Py.assoc "fieldType" field = Some field_type ->
  in_valid_field_types field_type = true ->
  Py.assoc "refKey" field = None ->
  exists name,
    Py.get (JObj field) "name" (JStr "unnamed") = Ok name
    /\ _validate_form_structure doc
       = Raise (ValueError (Msg.field_missing_ref_key name))
    /\ occurs_in (Py.str name) (Msg.field_missing_ref_key name).
Proof.
  intros Hreach Ht Hv Hnone.
  exists (match Py.assoc "name" field with Some n => n | None => JStr "unnamed" end).
  split; [reflexivity|]. split; [|apply occurs_in_mid].
  apply (field_reached_raise doc section field _ Hreach).
  unfold validate_field. cbn [Py.getitem Py.contains Py.get].
  rewrite Ht. cbn [bind]. rewrite Hv, Hnone. reflexivity.
Qed.

Lemma field_without_ref_key_named_witness :
  exists name,
    Py.get (JObj [("name", JStr "Age"); ("fieldType", JStr "text")])
           "name" (JStr "unnamed") = Ok name
    /\ _validate_form_structure
         (mk_document
            [mk_section "s1" [JObj [("name", JStr "Age"); ("fieldType", JStr "text")]]])
       = Raise (ValueError (Msg.field_missing_ref_key name))
    /\ occurs_in (Py.str name) (Msg.field_missing_ref_key name).
Proof.
  refine (field_without_ref_key_named
            (mk_document
               [mk_section "s1" [JObj [("name", JStr "Age"); ("fieldType", JStr "text")]]])
            [("refKey", JStr "s1");
             ("fields", JArr [JObj [("name", JStr "Age"); ("fieldType", JStr "text")]])]
            [("name", JStr "Age"); ("fieldType", JStr "text")]
            (JStr "text") _ eq_refl eq_refl eq_refl).
  exists [], [], Py.set_empty, (JStr "s1"), [], []. repeat split.
Defined.

(** X7: a document whose formGroups yields no element is accepted: the empty
    list, and equally the empty dict and the empty string. *)
Theorem no_sections_accepted items form fv form_groups :
  Py.assoc "form" items = Some form ->
  Py.assoc "formVersion" items = Some (JObj fv) ->
  Py.assoc "formGroups" fv = Some form_groups ->
  Py.iter form_groups = Ok [] ->
  _validate_form_structure (JObj items) = Ok tt.
Proof.
  intros Hform Hfv Hg Hiter.
  unfold _validate_form_structure, required_keys.
  cbn [Py.is_dict negb check_required_keys Py.contains Py.getitem].
  rewrite Hform, Hfv. cbn [bind negb Py.contains Py.getitem].
  rewrite Hg. cbn [bind negb]. rewrite Hiter. reflexivity.
Qed.

Lemma no_sections_accepted_witness :
  _validate_form_structure
    (JObj [("form", JObj []); ("formVersion", JObj [("formGroups", JStr EmptyString)])])
  = Ok tt.
Proof.
  exact (no_sections_accepted
           [("form", JObj []); ("formVersion", JObj [("formGroups", JStr EmptyString)])]
           (JObj []) [("formGroups", JStr EmptyString)] (JStr EmptyString)
           eq_refl eq_refl eq_refl eq_refl).
Defined.

(** *** What acceptance guarantees *)

Lemma validate_field_ok items sk field :
  Py.assoc "refKey" items = Some sk ->
  validate_field (JObj items) field = Ok tt ->
  linked_field sk field.
Proof.
  intros Hrk. unfold validate_field.
  destruct field as [| | | | |fitems]; try discriminate.
  cbn [Py.getitem Py.contains Py.get]. rewrite Hrk.
  destruct (Py.assoc "fieldType" fitems) as [t|] eqn:Ht; [|discriminate].
  cbn [bind].
  destruct (in_valid_field_types t) eqn:Hv; cbn [negb]; [|discriminate].
  destruct (Py.assoc "refKey" fitems) as [fk|] eqn:Hfk; cbn [bind negb];
    [|discriminate].
  unfold Py.ne. destruct (Py.eq fk sk) eqn:He; cbn [negb bind]; [|discriminate].
  intros _. exists fitems, t, fk. repeat split; try assumption.
  now apply in_valid_field_types_spec.
Qed.

Lemma validate_fields_ok items sk fields :
  Py.assoc "refKey" items = Some sk ->
  validate_fields (JObj items) fields = Ok tt ->
  Forall (linked_field sk) fields.
Proof.
  intros Hrk. induction fields as [|f rest IH]; [constructor|].
  cbn [validate_fields].
  destruct (validate_field (JObj items) f) as [[]|] eqn:Hf; [|discriminate].
  cbn [bind]. intros Hrest. constructor; [|exact (IH Hrest)].
  exact (validate_field_ok items sk f Hrk Hf).
Qed.

Lemma validate_group_ok group seen seen' :
  validate_group group seen = Ok seen' -> linked_section group.
Proof.
  unfold validate_group, check_section.
  destruct group as [| | |s|l|items]; try discriminate.
  - cbn [Py.contains bind].
    destruct (Py.str_contains "refKey" s); discriminate.
  - cbn [Py.contains bind]. destruct (existsb _ l); discriminate.
  - cbn [Py.contains Py.getitem Py.get].
    destruct (Py.assoc "refKey" items) as [rk|] eqn:Hrk; cbn [bind negb];
      [|discriminate].
    unfold Py.set_add.
    destruct (Py.hashable rk) eqn:Hh; cbn [bind]; [|discriminate].
    destruct (Py.assoc "fields" items) as [fields|] eqn:Hf; cbn [bind negb];
      [|discriminate].
    destruct (Py.iter fields) as [fl|] eqn:Hiter; cbn [bind]; [|discriminate].
    destruct (validate_fields (JObj items) fl) as [[]|] eqn:Hfl; cbn [bind];
      [|discriminate].
    destruct (check_layout (JObj items)) as [[]|] eqn:Hlay; cbn [bind];
      [|discriminate].
    intros _. exists items, rk, fields, fl. repeat split; try assumption.
    + exact (validate_fields_ok items rk fl Hrk Hfl).
    + intros conf layout Hconf Hl. revert Hlay.
      unfold check_layout. cbn [Py.contains Py.getitem].
      rewrite Hconf, Hrk. cbn [bind Py.contains Py.getitem]. rewrite Hl.
      cbn [bind Py.get]. unfold Py.ne.
      destruct (Py.eq _ rk) eqn:He; cbn [negb bind]; [|discriminate].
      intros _. eexists. split; [reflexivity|exact He].
Qed.

Lemma validate_groups_ok groups seen seen' :
  validate_groups groups seen = Ok seen' -> Forall linked_section groups.
Proof.
  revert seen. induction groups as [|g rest IH]; intros seen; [constructor|].
  cbn [validate_groups].
  destruct (validate_group g seen) as [s1|] eqn:Hg; [|discriminate].
  cbn [bind]. intros Hrest. constructor; [|exact (IH s1 Hrest)].
  exact (validate_group_ok g seen s1 Hg).
Qed.

(** X8: what the validator accepts is linked.  In an accepted document every
    section is a dict with a hashable refKey and a fields key; every field is
    a dict whose fieldType is one of the six allowed strings and whose refKey
    equals the section's; and a layout object's sectionKey (null when absent)
    equals the section's refKey. *)
Theorem accepted_document_is_linked doc groups :
  sections_of doc = Some groups ->
  _validate_form_structure doc = Ok tt ->
  Forall linked_section groups.
Proof.
  intros Hdoc. rewrite (validate_sections doc _ Hdoc).
  destruct (validate_groups groups Py.set_empty) as [seen|] eqn:H; [|discriminate].
  intros _. exact (validate_groups_ok groups Py.set_empty seen H).
Qed.

Lemma accepted_document_is_linked_witness :
  Forall linked_section [mk_section "s1" [mk_field "text" "s1"]].
Proof.
  exact (accepted_document_is_linked document_p1
           [mk_section "s1" [mk_field "text" "s1"]] eq_refl eq_refl).
Defined.

(** *** Sections are judged one by one *)

Lemma validate_groups_each groups seen :
  outcome (validate_groups groups seen) = Ok tt
  <-> Forall (fun g => outcome (validate_group g Py.set_empty) = Ok tt) groups.
Proof.
  revert seen. induction groups as [|g rest IH]; intros seen.
  - split; [constructor|reflexivity].
  - cbn [validate_groups]. rewrite outcome_bind.
    assert (Hg := validate_group_seen g seen Py.set_empty).
    split.
    + intros H. destruct (validate_group g seen) as [s1|] eqn:E; [|discriminate H].
      cbn [bind] in H. constructor; [now rewrite <- Hg|].
      exact (proj1 (IH s1) H).
    + intros H. inversion H as [|? ? H1 H2]; subst.
      rewrite H1 in Hg.
      destruct (validate_group g seen) as [s1|]; [|discriminate Hg].
      cbn [bind]. exact (proj2 (IH s1) H2).
Qed.

(** X9: a document is accepted exactly when each of its sections passes on
    its own, started on an empty working set: no check relates one section to
    another. *)
Theorem acceptance_is_sectionwise doc groups :
  sections_of doc = Some groups ->
  (_validate_form_structure doc = Ok tt
   <-> Forall (fun g => outcome (validate_group g Py.set_empty) = Ok tt) groups).
Proof.
  intros Hdoc. rewrite (validate_sections doc _ Hdoc).
  apply validate_groups_each.
Qed.

Lemma acceptance_is_sectionwise_witness :
  Forall (fun g => outcome (validate_group g Py.set_empty) = Ok tt)
         [mk_section "s1" [mk_field "text" "s1"]; mk_section "s1" [mk_field "radio" "s1"]].
Proof.
  exact (proj1 (acceptance_is_sectionwise document_duplicate_ref_keys
                  [mk_section "s1" [mk_field "text" "s1"];
                   mk_section "s1" [mk_field "radio" "s1"]] eq_refl)
               eq_refl).
Defined.

(** *** The exceptions the validator lets out *)

Ltac raised := intros [= <-]; reflexivity.

Lemma validate_field_exn items sk field e :
  Py.assoc "refKey" items = Some sk ->
  validate_field (JObj items) field = Raise e ->
  raised_by_validator e = true.
Proof.
  intros Hrk. unfold validate_field.
  destruct field as [| | | | |fitems]; try raised.
  cbn [Py.getitem Py.contains Py.get]. rewrite Hrk.
  destruct (Py.assoc "fieldType" fitems) as [t|]; cbn [bind]; [|raised].
  destruct (in_valid_field_types t); cbn [negb]; [|raised].
  destruct (Py.assoc "refKey" fitems) as [fk|]; cbn [bind negb]; [|raised].
  destruct (Py.ne fk sk); cbn [bind]; [raised|discriminate].
Qed.

Lemma validate_fields_exn items sk fields e :
  Py.assoc "refKey" items = Some sk ->
  validate_fields (JObj items) fields = Raise e ->
  raised_by_validator e = true.
Proof.
  intros Hrk. induction fields as [|f rest IH]; [discriminate|].
  cbn [validate_fields].
  destruct (validate_field (JObj items) f) as [[]|e'] eqn:Hf; cbn [bind].
  - exact IH.
  - intros [= <-]. exact (validate_field_exn items sk f e' Hrk Hf).
Qed.

Lemma check_layout_exn items rk e :
  Py.assoc "refKey" items = Some rk ->
  check_layout (JObj items) = Raise e ->
  raised_by_validator e = true.
Proof.
  intros Hrk. unfold check_layout. cbn [Py.contains Py.getitem]. rewrite Hrk.
  destruct (Py.assoc "configurations" items) as [conf|]; cbn [bind];
    [|discriminate].
  destruct conf as [| | |s|l|conf]; try raised; cbn [Py.contains Py.getitem bind].
  - destruct (Py.str_contains "layout" s); [raised|discriminate].
  - destruct (existsb _ l); [raised|discriminate].
  - destruct (Py.assoc "layout" conf) as [lay|]; cbn [bind]; [|discriminate].
    destruct lay as [| | | | |lay]; try raised.
    cbn [Py.get bind]. destruct (Py.ne _ rk); cbn [bind]; [raised|discriminate].
Qed.

Lemma validate_group_exn group seen e :
  validate_group group seen = Raise e -> raised_by_validator e = true.
Proof.
  unfold validate_group, check_section.
  destruct group as [| | |s|l|items]; try raised.
  - cbn [Py.contains bind]. destruct (Py.str_contains "refKey" s); raised.
  - cbn [Py.contains bind]. destruct (existsb _ l); raised.
  - cbn [Py.contains Py.getitem Py.get].
    destruct (Py.assoc "refKey" items) as [rk|] eqn:Hrk; cbn [bind negb]; [|raised].
    unfold Py.set_add. destruct (Py.hashable rk); cbn [bind]; [|raised].
    destruct (Py.assoc "fields" items) as [fields|]; cbn [bind negb]; [|raised].
    destruct (Py.iter fields) as [fl|e'] eqn:Hiter; cbn [bind].
    2:{ intros [= <-]. destruct fields; try discriminate Hiter;
          injection Hiter as <-; reflexivity. }
    destruct (validate_fields (JObj items) fl) as [[]|e'] eqn:Hfl; cbn [bind].
    2:{ intros [= <-]. exact (validate_fields_exn items rk fl e' Hrk Hfl). }
    destruct (check_layout (JObj items)) as [[]|e'] eqn:Hlay; cbn [bind];
      [discriminate|].
    intros [= <-]. exact (check_layout_exn items rk e' Hrk Hlay).
Qed.

Lemma validate_groups_exn groups seen e :
  validate_groups groups seen = Raise e -> raised_by_validator e = true.
Proof.
  revert seen. induction groups as [|g rest IH]; intros seen; [discriminate|].
  cbn [validate_groups].
  destruct (validate_group g seen) as [s1|e'] eqn:Hg; cbn [bind].
  - apply IH.
  - intros [= <-]. exact (validate_group_exn g seen e' Hg).
Qed.

Lemma validate_exn doc e :
  _validate_form_structure doc = Raise e -> raised_by_validator e = true.
Proof.
  unfold _validate_form_structure, required_keys.
  destruct doc as [| | | | |items]; try raised.
  cbn [Py.is_dict negb check_required_keys Py.contains Py.getitem].
  destruct (Py.assoc "form" items); cbn [bind negb]; [|raised].
  destruct (Py.assoc "formVersion" items) as [fv|]; cbn [bind negb]; [|raised].
  destruct (Py.contains "formGroups" fv) as [[]|e'] eqn:Hc; cbn [bind negb].
  - destruct (Py.getitem fv "formGroups") as [gs|e'] eqn:Hg; cbn [bind].
    2:{ intros [= <-]. destruct fv as [| | | | |fvi];
          try (injection Hg as <-; reflexivity).
        cbn in Hc, Hg. destruct (Py.assoc "formGroups" fvi); discriminate. }
    destruct (Py.iter gs) as [groups|e'] eqn:Hiter; cbn [bind].
    2:{ intros [= <-]. destruct gs; try discriminate Hiter;
          injection Hiter as <-; reflexivity. }
    destruct (validate_groups groups Py.set_empty) as [s|e'] eqn:Hgs; cbn [bind];
      [discriminate|].
    intros [= <-]. exact (validate_groups_exn groups Py.set_empty e' Hgs).
  - raised.
  - intros [= <-]. destruct fv; try discriminate Hc; injection Hc as <-; reflexivity.
Qed.

(** X10: whatever the document, the only exceptions the validator lets out
    are its own [ValueError]s and, of Python's, [TypeError], [AttributeError]
    and the [KeyError] on "fieldType": every other key it subscripts is
    tested for presence first. *)
Theorem validator_exceptions doc e :
  _validate_form_structure doc = Raise e ->
  (exists m, e = ValueError m)
  \/ e = TypeError \/ e = AttributeError \/ e = KeyError "fieldType".
Proof.
  intros H. apply validate_exn in H.
  destruct e; cbn in H; try discriminate; eauto.
  apply String.eqb_eq in H. subst. auto.
Qed.

Lemma validator_exceptions_witness :
  (exists m, KeyError "fieldType" = ValueError m)
  \/ KeyError "fieldType" = TypeError \/ KeyError "fieldType" = AttributeError
  \/ KeyError "fieldType" = KeyError "fieldType".
Proof.
  exact (validator_exceptions
           (mk_document [mk_section "s1" [JObj field_without_type]])
           (KeyError "fieldType") eq_refl).
Defined.

(** *** The keys the validator reads *)

Lemma assoc_skip k key v a b :
  k <> key ->
  Py.assoc k (a ++ (key, v) :: b)%list = Py.assoc k (a ++ b)%list.
Proof.
  intros Hne. induction a as [|[k' v'] a IH]; cbn [app Py.assoc].
  - destruct (String.eqb k key) eqn:E; [|reflexivity].
    apply String.eqb_eq in E. contradiction.
  - now rewrite IH.
Qed.

Lemma validate_fields_same_ref_key items items' fields :
  Py.assoc "refKey" items = Py.assoc "refKey" items' ->
  validate_fields (JObj items) fields = validate_fields (JObj items') fields.
Proof.
  intros H. induction fields as [|f rest IH]; [reflexivity|].
  cbn [validate_fields]. rewrite IH. unfold validate_field.
  cbn [Py.getitem]. now rewrite H.
Qed.

(** X11: the validator reads four keys of a section: refKey, name, fields and
    configurations.  A section with any other key added, whatever its value
    and wherever it stands, is judged as the section without it. *)
Theorem unread_section_key_ignored key v a b seen :
  ~ In key section_keys ->
  validate_group (JObj (a ++ (key, v) :: b)%list) seen
  = validate_group (JObj (a ++ b)%list) seen.
Proof.
  intros Hnot.
  assert (Hk : forall k, In k section_keys ->
                         Py.assoc k (a ++ (key, v) :: b)%list
                         = Py.assoc k (a ++ b)%list).
  { intros k Hin. apply assoc_skip. intros ->. contradiction. }
  assert (Hrk := Hk "refKey" (or_introl eq_refl)).
  assert (Hname := Hk "name" (or_intror (or_introl eq_refl))).
  assert (Hf := Hk "fields" (or_intror (or_intror (or_introl eq_refl)))).
  assert (Hc := Hk "configurations"
                   (or_intror (or_intror (or_intror (or_introl eq_refl))))).
  unfold validate_group, check_section, check_layout.
  cbn [Py.contains Py.getitem Py.get].
  rewrite Hrk, Hname, Hf, Hc.
  destruct (Py.assoc "refKey" (a ++ b)%list) as [rk|] eqn:Erk; [|reflexivity].
  cbn [bind negb].
  destruct (Py.set_add seen rk); [|reflexivity]. cbn [bind].
  destruct (Py.assoc "fields" (a ++ b)%list) as [fields|]; [|reflexivity].
  cbn [bind negb].
  destruct (Py.iter fields) as [fl|]; [|reflexivity]. cbn [bind].
  rewrite (validate_fields_same_ref_key _ (a ++ b)%list fl
             (eq_trans Hrk (eq_sym Erk))).
  reflexivity.
Qed.

Lemma unread_section_key_ignored_witness :
  validate_group
    (JObj [("sequence", JInt 1); ("refKey", JStr "s1"); ("fields", JArr [])])
    Py.set_empty
  = validate_group (JObj [("refKey", JStr "s1"); ("fields", JArr [])]) Py.set_empty.
Proof.
  refine (unread_section_key_ignored "sequence" (JInt 1) []
            [("refKey", JStr "s1"); ("fields", JArr [])] Py.set_empty _).
  cbn. intros [H|[H|[H|[H|[]]]]]; discriminate H.
Defined.

(** X12: the validator reads three keys of a field: fieldType, refKey and
    name.  A field with any other key added is judged as the field without
    it. *)
Theorem unread_field_key_ignored group key v a b :
  ~ In key field_keys ->
  validate_field group (JObj (a ++ (key, v) :: b)%list)
  = validate_field group (JObj (a ++ b)%list).
Proof.
  intros Hnot.
  assert (Hk : forall k, In k field_keys ->
                         Py.assoc k (a ++ (key, v) :: b)%list
                         = Py.assoc k (a ++ b)%list).
  { intros k Hin. apply assoc_skip. intros ->. contradiction. }
  unfold validate_field. cbn [Py.contains Py.getitem Py.get].
  rewrite (Hk "fieldType" (or_introl eq_refl)).
  rewrite (Hk "refKey" (or_intror (or_introl eq_refl))).
  rewrite (Hk "name" (or_intror (or_intror (or_introl eq_refl)))).
  reflexivity.
Qed.

Lemma unread_field_key_ignored_witness :
  validate_field (mk_section "s1" [])
    (JObj [("fieldType", JStr "text"); ("sequence", JInt 1); ("refKey", JStr "s1")])
  = validate_field (mk_section "s1" []) (mk_field "text" "s1").
Proof.
  refine (unread_field_key_ignored (mk_section "s1" []) "sequence" (JInt 1)
            [("fieldType", JStr "text")] [("refKey", JStr "s1")] _).
  cbn. intros [H|[H|[H|[]]]]; discriminate H.
Defined.

(** *** The working set of section keys *)

Lemma eq_refl_hashable k : Py.hashable k = true -> Py.eq k k = true.
Proof.
  destruct k; cbn; try discriminate; intros _.
  - reflexivity.
  - apply Bool.eqb_reflx.
  - apply Z.eqb_refl.
  - apply String.eqb_refl.
Qed.

Lemma set_add_mem s k s' :
  Py.set_add s k = Ok s' ->
  set_mem k s' = true
  /\ (forall x, set_mem x s = true -> set_mem x s' = true)
  /\ (List.length s' <= S (List.length s))%nat.
Proof.
  unfold Py.set_add, set_mem.
  destruct (Py.hashable k) eqn:Hh; [|discriminate].
  destruct (existsb (Py.eq k) s) eqn:Hin; intros [= <-].
  - repeat split; auto.
  - cbn [existsb List.length]. rewrite (eq_refl_hashable k Hh).
    repeat split; auto. intros x ->. apply orb_true_r.
Qed.

Lemma validate_group_collects group seen seen' :
  validate_group group seen = Ok seen' ->
  (exists rk, Py.getitem group "refKey" = Ok rk /\ set_mem rk seen' = true)
  /\ (forall x, set_mem x seen = true -> set_mem x seen' = true)
  /\ (List.length seen' <= S (List.length seen))%nat.
Proof.
  unfold validate_group, check_section.
  destruct (Py.contains "refKey" group) as [[]|]; cbn [bind negb];
    [| |discriminate].
  2:{ destruct (Py.get group "name" (JStr "unnamed")); discriminate. }
  destruct (Py.getitem group "refKey") as [rk|]; cbn [bind]; [|discriminate].
  destruct (Py.set_add seen rk) as [s1|] eqn:Hadd; cbn [bind]; [|discriminate].
  destruct (Py.contains "fields" group) as [[]|]; cbn [bind negb];
    try discriminate.
  destruct (Py.getitem group "fields") as [fs|]; cbn [bind]; [|discriminate].
  destruct (Py.iter fs) as [fl|]; cbn [bind]; [|discriminate].
  destruct (validate_fields group fl); cbn [bind]; [|discriminate].
  destruct (check_layout group); cbn [bind]; [|discriminate].
  intros [= <-]. destruct (set_add_mem seen rk s1 Hadd) as (H1 & H2 & H3).
  repeat split; eauto.
Qed.

Lemma validate_groups_collects groups seen seen' :
  validate_groups groups seen = Ok seen' ->
  Forall (fun g => exists rk, Py.getitem g "refKey" = Ok rk
                              /\ set_mem rk seen' = true) groups
  /\ (forall x, set_mem x seen = true -> set_mem x seen' = true)
  /\ (List.length seen' <= List.length groups + List.length seen)%nat.
Proof.
  revert seen. induction groups as [|g rest IH]; intros seen.
  - intros [= <-]. repeat split; auto.
  - cbn [validate_groups].
    destruct (validate_group g seen) as [s1|] eqn:Hg; cbn [bind]; [|discriminate].
    intros Hrest.
    destruct (validate_group_collects g seen s1 Hg) as ((rk & Hrk & Hin) & Hmon & Hlen).
    destruct (IH s1 Hrest) as (Hall & Hmon' & Hlen').
    repeat split.
    + constructor; [|exact Hall]. exists rk. auto.
    + auto.
    + cbn [List.length]. lia.
Qed.

(** X13: the working set does collect the sections' refKeys.  When the loop
    over the sections ends normally, the refKey of every section is in the
    set, and the set holds at most as many keys as there are sections. *)
Theorem section_ref_keys_collected groups seen :
  validate_groups groups Py.set_empty = Ok seen ->
  Forall (fun g => exists rk, Py.getitem g "refKey" = Ok rk
                              /\ set_mem rk seen = true) groups
  /\ (List.length seen <= List.length groups)%nat.
Proof.
  intros H. destruct (validate_groups_collects groups Py.set_empty seen H)
    as (Hall & _ & Hlen).
  split; [exact Hall|]. cbn [Py.set_empty List.length] in Hlen. lia.
Qed.

Lemma section_ref_keys_collected_witness :
  Forall (fun g => exists rk, Py.getitem g "refKey" = Ok rk
                              /\ set_mem rk [JStr "s1"] = true)
         [mk_section "s1" [mk_field "text" "s1"]; mk_section "s1" [mk_field "radio" "s1"]]
  /\ (List.length [JStr "s1"] <= 2)%nat.
Proof.
  exact (section_ref_keys_collected
           [mk_section "s1" [mk_field "text" "s1"];
            mk_section "s1" [mk_field "radio" "s1"]]
           [JStr "s1"] eq_refl).
Defined.

(** ** Properties of the callers *)

Lemma handle_bound_result response e trace :
  fst (handle (Some response) e trace) = Raise e
  /\ posted (snd (handle (Some response) e trace)) = posted trace.
Proof.
  unfold handle. destruct e; cbn [fst snd]; rewrite posted_emit;
    cbn [app]; rewrite app_nil_r; split; reflexivity.
Qed.

Lemma handle_posts_nothing response e trace :
  posted (snd (handle response e trace)) = posted trace.
Proof.
  destruct response as [r|]; [apply handle_bound_result|].
  unfold handle. destruct e; cbn [fst snd]; try reflexivity;
    rewrite posted_emit; cbn [app]; apply app_nil_r.
Qed.

Lemma generate_posts_nothing chain_invoke prompt trace :
  posted (snd (generate_form_from_prompt chain_invoke prompt trace))
  = posted trace.
Proof.
  unfold generate_form_from_prompt.
  destruct (chain_invoke prompt) as [response|e];
    [|apply handle_posts_nothing].
  destruct (_validate_form_structure response); [|apply handle_posts_nothing].
  cbn [snd]. rewrite posted_emit. apply app_nil_r.
Qed.

Lemma generate_ok chain_invoke prompt trace doc :
  fst (generate_form_from_prompt chain_invoke prompt trace) = Ok doc ->
  chain_invoke prompt = Ok doc /\ _validate_form_structure doc = Ok tt.
Proof.
  unfold generate_form_from_prompt.
  destruct (chain_invoke prompt) as [response|e].
  - destruct (_validate_form_structure response) as [[]|e] eqn:Hv.
    + cbn [fst]. intros [= <-]. auto.
    + rewrite (proj1 (handle_bound_result response e trace)). discriminate.
  - unfold handle. destruct e; cbn [fst]; discriminate.
Qed.

(** X14: [generate_form_from_prompt] returns a document only when it is the
    one the chain produced and the validator accepted it; it never returns a
    document the validator did not pass. *)
Theorem generate_returns_only_validated chain_invoke prompt trace doc :
  fst (generate_form_from_prompt chain_invoke prompt trace) = Ok doc ->
  chain_invoke prompt = Ok doc /\ _validate_form_structure doc = Ok tt.
Proof. apply generate_ok. Qed.

Lemma generate_returns_only_validated_witness :
  (fun _ : string => Ok document_p1) "a contact form" = Ok document_p1
  /\ _validate_form_structure document_p1 = Ok tt.
Proof.
  exact (generate_returns_only_validated (fun _ => Ok document_p1)
           "a contact form" [] document_p1 eq_refl).
Defined.

(** X15: whatever the chain, the remote service and the environment do, one
    call of [create_and_trigger_form] posts nothing, or posts exactly one
    payload, which is the document the chain produced and the validator
    accepted. *)
Theorem only_validated_payload_posted
        chain_invoke remote base_url token prompt trace :
  let after := snd (create_and_trigger_form chain_invoke remote base_url token
                      prompt trace) in
  posted after = posted trace
  \/ exists doc,
       chain_invoke prompt = Ok doc
       /\ _validate_form_structure doc = Ok tt
       /\ posted after = (posted trace ++ [doc])%list.
Proof.
  cbn zeta. unfold create_and_trigger_form.
  assert (Hp := generate_posts_nothing chain_invoke prompt trace).
  assert (Hok := generate_ok chain_invoke prompt trace).
  destruct (generate_form_from_prompt chain_invoke prompt trace) as [[doc|e] t1].
  - cbn [fst snd] in *. destruct (Hok doc eq_refl) as [Hc Hv].
    unfold trigger_api.
    destruct token as [tok|]; [destruct base_url as [url|]|]; cbn [snd].
    + right. exists doc. repeat split; [exact Hc|exact Hv|].
      rewrite !posted_emit. cbn [app]. now rewrite app_nil_r, Hp.
    + left. rewrite posted_emit. cbn [app]. now rewrite app_nil_r.
    + left. rewrite posted_emit. cbn [app]. now rewrite app_nil_r.
  - left. exact Hp.
Qed.

(** X16: when the chain itself raises [JSONDecodeError], the first [except]
    clause formats the local [response], which was never bound: the caller
    gets [UnboundLocalError] instead of the parser's error, and nothing is
    logged. *)
Theorem json_decode_error_masked chain_invoke prompt trace :
  chain_invoke prompt = Raise JSONDecodeError ->
  generate_form_from_prompt chain_invoke prompt trace
  = (Raise UnboundLocalError, trace).
Proof.
  intros H. unfold generate_form_from_prompt. rewrite H. reflexivity.
Qed.

Lemma json_decode_error_masked_witness :
  generate_form_from_prompt (fun _ => Raise JSONDecodeError) "a contact form" []
  = (Raise UnboundLocalError, []).
Proof.
  exact (json_decode_error_masked (fun _ => Raise JSONDecodeError)
           "a contact form" [] eq_refl).
Defined.

Lemma generate_rejection chain_invoke prompt trace doc e :
  chain_invoke prompt = Ok doc ->
  _validate_form_structure doc = Raise e ->
  generate_form_from_prompt chain_invoke prompt trace
  = (Raise e,
     emit trace (Log ERROR (if raw e then "Error generating form: "
                            else "Invalid response structure: ") (inr e))).
Proof.
  intros Hc Hv. unfold generate_form_from_prompt. rewrite Hc, Hv.
  assert (H := validate_exn doc e Hv).
  destruct e; try discriminate H; reflexivity.
Qed.

(** X17: a document the validator rejects is logged once, at level ERROR, and
    the exception is re-raised as it is: under "Invalid response structure: "
    for the validator's own [ValueError]s, under "Error generating form: "
    for the exceptions Python raised inside the validator. *)
Theorem rejection_logged_and_reraised chain_invoke prompt trace doc e :
  chain_invoke prompt = Ok doc ->
  _validate_form_structure doc = Raise e ->
  generate_form_from_prompt chain_invoke prompt trace
  = (Raise e,
     emit trace (Log ERROR (if raw e then "Error generating form: "
                            else "Invalid response structure: ") (inr e))).
Proof. apply generate_rejection. Qed.

Lemma rejection_logged_and_reraised_witness :
  generate_form_from_prompt
    (fun _ => Ok (mk_document [mk_section "s1" [JObj field_without_type]]))
    "a contact form" []
  = (Raise (KeyError "fieldType"),
     [Log ERROR "Error generating form: " (inr (KeyError "fieldType"))]).
Proof.
  exact (rejection_logged_and_reraised
           (fun _ => Ok (mk_document [mk_section "s1" [JObj field_without_type]]))
           "a contact form" []
           (mk_document [mk_section "s1" [JObj field_without_type]])
           (KeyError "fieldType") eq_refl eq_refl).
Defined.

(** X18: with FORM_API_TOKEN or FORM_API_BASE_URL unset, an accepted document
    is logged and then lost: building the header or the URL adds [None] to a
    string, [create_and_trigger_form] raises [TypeError], and nothing is
    posted. *)
Theorem unset_environment_type_error
        chain_invoke remote base_url token prompt trace doc :
  chain_invoke prompt = Ok doc ->
  _validate_form_structure doc = Ok tt ->
  token = None \/ base_url = None ->
  create_and_trigger_form chain_invoke remote base_url token prompt trace
  = (Raise TypeError,
     emit (emit trace (Log INFO "Generated form definition: " (inl doc)))
          (Log ERROR EmptyString (inl doc))).
Proof.
  intros Hc Hv Henv.
  unfold create_and_trigger_form, generate_form_from_prompt, trigger_api.
  rewrite Hc, Hv.
  destruct token as [tok|]; [|reflexivity].
  destruct Henv as [H| ->]; [discriminate H|reflexivity].
Qed.

Lemma unset_environment_type_error_witness :
  fst (create_and_trigger_form (fun _ => Ok document_p1) (fun _ _ _ => Ok JNull)
         (Some "https://forms.example") None "a contact form" [])
  = Raise TypeError.
Proof.
  exact (f_equal fst
           (unset_environment_type_error
              (fun _ => Ok document_p1) (fun _ _ _ => Ok JNull)
              (Some "https://forms.example") None "a contact form" []
              document_p1 eq_refl eq_refl (or_introl eq_refl))).
Defined.

(** X19: at the request boundary a rejected document becomes a status 500
    whose detail is the validator's exception, and nothing is posted. *)
Theorem rejection_is_status_500
        chain_invoke remote base_url token prompt trace doc e :
  chain_invoke prompt = Ok doc ->
  _validate_form_structure doc = Raise e ->
  fst (create_form chain_invoke remote base_url token prompt trace)
  = HTTPException 500 e
  /\ posted (snd (create_form chain_invoke remote base_url token prompt trace))
     = posted trace.
Proof.
  intros Hc Hv. unfold create_form, create_and_trigger_form.
  rewrite (generate_rejection chain_invoke prompt trace doc e Hc Hv).
  cbn [fst snd]. split; [reflexivity|].
  rewrite posted_emit. apply app_nil_r.
Qed.

Lemma rejection_is_status_500_witness :
  fst (create_form (fun _ => Ok (mk_document [mk_section "a" [mk_field "text" "b"]]))
         (fun _ _ _ => Ok JNull) (Some "https://forms.example") (Some "t0k3n")
         "a contact form" [])
  = HTTPException 500
      (ValueError
         "Field 'unnamed' has refKey 'b' that doesn't match its section refKey 'a'").
Proof.
  exact (proj1 (rejection_is_status_500
                  (fun _ => Ok (mk_document [mk_section "a" [mk_field "text" "b"]]))
                  (fun _ _ _ => Ok JNull) (Some "https://forms.example")
                  (Some "t0k3n") "a contact form" []
                  (mk_document [mk_section "a" [mk_field "text" "b"]])
                  (ValueError
                     "Field 'unnamed' has refKey 'b' that doesn't match its section refKey 'a'")
                  eq_refl eq_refl)).
Defined.

(** ** Malformed sections *)

(** X20: the layout check subscripts and calls without testing the kind of
    value.  For a section that reaches the check, configurations that are
    null, a boolean or a number make the membership test fail with a
    [TypeError], and a layout that is present but not a dict makes [.get]
    fail with an [AttributeError]. *)
Theorem malformed_configurations doc section :
  layout_reached doc section ->
  (forall conf,
      Py.assoc "configurations" section = Some conf ->
      conf = JNull \/ (exists b, conf = JBool b) \/ (exists n, conf = JInt n) ->
      _validate_form_structure doc = Raise TypeError)
  /\ (forall conf layout,
         Py.assoc "configurations" section = Some (JObj conf) ->
         Py.assoc "layout" conf = Some layout ->
         Py.is_dict layout = false ->
         _validate_form_structure doc = Raise AttributeError).
Proof.
  intros Hreach. split.
  - intros conf Hconf Hkind.
    apply (layout_reached_raise doc section _ Hreach).
    unfold check_layout. cbn [Py.contains Py.getitem]. rewrite Hconf.
    destruct Hkind as [->|[[b ->]|[n ->]]]; reflexivity.
  - intros conf layout Hconf Hlay Hkind.
    apply (layout_reached_raise doc section _ Hreach).
    unfold check_layout. cbn [Py.contains Py.getitem]. rewrite Hconf.
    cbn [bind Py.contains Py.getitem]. rewrite Hlay. cbn [bind].
    destruct layout; try discriminate Hkind; reflexivity.
Qed.

Lemma malformed_configurations_witness :
  _validate_form_structure
    (mk_document [JObj [("refKey", JStr "s1"); ("fields", JArr []);
                        ("configurations", JObj [("layout", JNull)])]])
  = Raise AttributeError.
Proof.
  refine (proj2 (malformed_configurations
                   (mk_document [JObj [("refKey", JStr "s1"); ("fields", JArr []);
                                       ("configurations", JObj [("layout", JNull)])]])
                   [("refKey", JStr "s1"); ("fields", JArr []);
                    ("configurations", JObj [("layout", JNull)])] _)
                [("layout", JNull)] JNull eq_refl eq_refl eq_refl).
  exists [], [], Py.set_empty, [JStr "s1"]. repeat split.
Defined.

(** X21: a section the validator gets to that is not a dict is never
    reported by one of the validator's messages: a list or a string fails
    with [TypeError] or [AttributeError], anything else with [TypeError]. *)
Theorem section_not_a_dict doc section :
  section_reached doc section ->
  Py.is_dict section = false ->
  _validate_form_structure doc = Raise TypeError
  \/ _validate_form_structure doc = Raise AttributeError.
Proof.
  intros Hreach Hkind.
  destruct section as [| | |s|l|items]; try discriminate Hkind.
  - left. apply (section_reached_raise doc _ _ Hreach). reflexivity.
  - left. apply (section_reached_raise doc _ _ Hreach). reflexivity.
  - left. apply (section_reached_raise doc _ _ Hreach). reflexivity.
  - destruct (Py.str_contains "refKey" s) eqn:E; [left|right];
      apply (section_reached_raise doc _ _ Hreach); intros seen;
      unfold validate_group, check_section; cbn [Py.contains bind];
      rewrite E; reflexivity.
  - destruct (existsb (Py.eq (JStr "refKey")) l) eqn:E; [left|right];
      apply (section_reached_raise doc _ _ Hreach); intros seen;
      unfold validate_group, check_section; cbn [Py.contains bind];
      rewrite E; reflexivity.
Qed.

Lemma section_not_a_dict_witness :
  _validate_form_structure (mk_document [JArr [JStr "refKey"]]) = Raise TypeError
  \/ _validate_form_structure (mk_document [JArr [JStr "refKey"]])
     = Raise AttributeError.
Proof.
  refine (section_not_a_dict (mk_document [JArr [JStr "refKey"]])
            (JArr [JStr "refKey"]) _ eq_refl).
  exists [], [], Py.set_empty. split; reflexivity.
Defined.
